(** * Prevora: aggregation, notification merge and live-feed engine

    A shallow embedding of the computations performed by the dashboard
    components

      - [src/components/AdvancedAnalytics.tsx]  (module [Analytics]),
      - [src/components/NotificationCenter.tsx] (module [Notifications]),
      - the real-time monitor component         (module [Monitor]),

    together with the properties of the derived views.

    Conventions.

    - Record fields, local names and function names follow the source.
    - Lengths and the counts of arrays are natural numbers.  The counts
      kept in an object literal are [JS.count]: a number, or the text that
      an inherited member of [Object.prototype] turns into.
    - Where the risk factors and the hour slots divide, the operands are
      injected into [JS.number], a model of the JavaScript Number type
      that keeps the special values [NaN] and the two infinities; its
      finite results are exact rationals.  The percentage of the type
      breakdown, which is rounded to an integer, is computed in binary64
      ([Binary64]).
    - What the components obtain from the runtime ([Date], [Math.random])
      is passed in explicitly; what they obtain from the record store is
      the outcome of a fetch. *)

From Stdlib Require Import String Ascii Bool Arith ZArith QArith Qround SpecFloat.
From Stdlib Require Import Lia DecimalString List Permutation Sorted.
Import ListNotations.

Local Open Scope nat_scope.
Local Open Scope string_scope.
Local Open Scope list_scope.

(* ====================================================================== *)
(** ** JavaScript primitives used by the components                        *)
(* ====================================================================== *)

Module JS.

(** The Number type: a finite value, the two infinities, or NaN.
    All zeros that arise in the components are positive zeros. *)
Inductive number : Set :=
| Fin (q : Q)
| PosInf
| NegInf
| NaN.

Definition of_Z (z : Z) : number := Fin (inject_Z z).
Definition of_nat (n : nat) : number := of_Z (Z.of_nat n).

Definition is_zero (q : Q) : bool := Qeq_bool q 0.
Definition is_neg (q : Q) : bool := negb (Qle_bool 0 q).

(** [a / b] *)
Definition div (a b : number) : number :=
  match a, b with
  | NaN, _ | _, NaN => NaN
  | Fin x, Fin y =>
      if is_zero y then
        if is_zero x then NaN else if is_neg x then NegInf else PosInf
      else Fin (Qred (x / y))
  | Fin _, _ => Fin 0
  | PosInf, Fin y => if is_neg y then NegInf else PosInf
  | NegInf, Fin y => if is_neg y then PosInf else NegInf
  | _, _ => NaN
  end.

(** [a * b] *)
Definition mul (a b : number) : number :=
  match a, b with
  | NaN, _ | _, NaN => NaN
  | Fin x, Fin y => Fin (Qred (x * y))
  | Fin x, PosInf | PosInf, Fin x =>
      if is_zero x then NaN else if is_neg x then NegInf else PosInf
  | Fin x, NegInf | NegInf, Fin x =>
      if is_zero x then NaN else if is_neg x then PosInf else NegInf
  | PosInf, PosInf | NegInf, NegInf => PosInf
  | _, _ => NegInf
  end.

(** [Math.min(a, b)] *)
Definition Math_min (a b : number) : number :=
  match a, b with
  | NaN, _ | _, NaN => NaN
  | NegInf, _ | _, NegInf => NegInf
  | PosInf, x | x, PosInf => x
  | Fin x, Fin y => if Qle_bool x y then a else b
  end.

(** [Math.max(a, b)] and the variadic [Math.max(...xs)], whose value
    on no argument is [-Infinity]. *)
Definition max2 (a b : number) : number :=
  match a, b with
  | NaN, _ | _, NaN => NaN
  | PosInf, _ | _, PosInf => PosInf
  | NegInf, x | x, NegInf => x
  | Fin x, Fin y => if Qle_bool x y then b else a
  end.

Definition Math_max (xs : list number) : number := fold_right max2 NegInf xs.

(** [Math.floor(a)] of a finite value, as an integer. *)
Definition Math_floor (x : Q) : Z := Qfloor x.

(** The value lies in the closed interval [0, 100]. *)
Definition in_0_100 (a : number) : Prop :=
  match a with
  | Fin x => (0 <= x /\ x <= 100)%Q
  | _ => False
  end.

(** [s.split(',')[0]]: the characters before the first comma. *)
Fixpoint first_segment (s : string) : string :=
  match s with
  | EmptyString => EmptyString
  | String c s' => if Ascii.eqb c "," then EmptyString
                   else String c (first_segment s')
  end.

(** [s.startsWith(p)] *)
Definition startsWith (s p : string) : bool := String.prefix p s.

(** [arr.slice(0, n)] *)
Definition slice0 {A : Type} (n : nat) (arr : list A) : list A := firstn n arr.

(** [n.toString()] and [`${n}`] for an integer. *)
Definition toString (n : Z) : string :=
  NilZero.string_of_int (Z.to_int n).

(** [Array.prototype.sort(cmp)].  The sort is stable; with a consistent
    comparator its result is the one insertion from the right computes:
    [x] is placed in front of the first element it does not compare
    greater than. *)
Section Sort.
Context {A : Type} (cmp : A -> A -> Z).

Fixpoint insert_sorted (x : A) (l : list A) : list A :=
  match l with
  | [] => [x]
  | y :: l' => if (cmp x y <=? 0)%Z then x :: l
               else y :: insert_sorted x l'
  end.

Definition sort (l : list A) : list A := fold_right insert_sorted [] l.
End Sort.

(** *** Object literals used as counters

    [counts[k] = (counts[k] || 0) + 1] on an object created by [{}].
    Such an object inherits the members of [Object.prototype]: a read of
    a key it does not own finds the inherited member.  For the function
    members the member is truthy, and [member + 1] is the source text of
    the member followed by the character 1; the object then owns that
    text under the key, and every later increment appends another 1.  For
    [__proto__] the read yields the prototype object and the assignment
    of the resulting text is ignored by the inherited setter: the object
    never owns that key. *)

(** A count as the object holds it: a number, or the source text of the
    inherited member followed by [ones] characters 1. *)
Inductive count : Set :=
| Num (n : nat)
| Inherited (member : string) (ones : nat).

(** The own properties, in creation order. *)
Definition object := list (string * count).

(** The function-valued members of [Object.prototype]. *)
Definition prototype_functions : list string :=
  [ "constructor"; "hasOwnProperty"; "isPrototypeOf"; "propertyIsEnumerable";
    "toLocaleString"; "toString"; "valueOf"; "__defineGetter__";
    "__defineSetter__"; "__lookupGetter__"; "__lookupSetter__" ].

(** The key names no member of [Object.prototype]. *)
Definition ordinary (k : string) : bool :=
  negb (String.eqb k "__proto__")
  && negb (existsb (String.eqb k) prototype_functions).

(** An assignment [o[k] = v] of a number or a text creates the property
    on an object literal, but for the key [__proto__]. *)
Definition assignable (k : string) : bool := negb (String.eqb k "__proto__").

(** The own property of the key, if there is one. *)
Fixpoint own {V : Type} (k : string) (o : list (string * V)) : option V :=
  match o with
  | [] => None
  | (k', v) :: o' => if String.eqb k' k then Some v else own k o'
  end.

(** [o[k] = v] for a key that is not [__proto__]: an existing property
    keeps its place, a new one is created last. *)
Fixpoint set {V : Type} (k : string) (v : V) (o : list (string * V))
  : list (string * V) :=
  match o with
  | [] => [(k, v)]
  | (k', v') :: o' => if String.eqb k' k then (k', v) :: o'
                      else (k', v') :: set k v o'
  end.

(** [o[k] = (o[k] || 0) + 1] *)
Definition bump (k : string) (o : object) : object :=
  match own k o with
  | Some (Num n) => set k (Num (n + 1)) o
  | Some (Inherited member ones) => set k (Inherited member (ones + 1)) o
  | None =>
      if String.eqb k "__proto__" then o
      else if existsb (String.eqb k) prototype_functions
           then set k (Inherited k 1) o
           else set k (Num 1) o
  end.

(** [count > n]: the text of an inherited member converts to NaN, and a
    comparison with NaN is false. *)
Definition exceeds (c : count) (n : nat) : bool :=
  match c with
  | Num v => (n <? v)%nat
  | Inherited _ _ => false
  end.

(** [b - a] as the comparator of a sort returns it to [sort], which
    reads a NaN result as 0.  Among numbers the comparator is consistent;
    with the text of an inherited member among the counts it is not, and
    the order of more than one group is then left to the engine. *)
Definition difference (b a : count) : Z :=
  match b, a with
  | Num x, Num y => (Z.of_nat x - Z.of_nat y)%Z
  | _, _ => 0%Z
  end.

Definition digit (c : ascii) : option N :=
  let n := N_of_ascii c in
  if (48 <=? n)%N && (n <=? 57)%N then Some (n - 48)%N else None.

Fixpoint digits (s : string) (acc : N) : option N :=
  match s with
  | EmptyString => Some acc
  | String c s' => match digit c with
                   | Some d => digits s' (10 * acc + d)%N
                   | None => None
                   end
  end.

(** A key is an array index when it is the canonical decimal form of an
    integer below [2^32 - 1]. *)
Definition array_index (k : string) : option N :=
  match k with
  | EmptyString => None
  | String c rest =>
      if Ascii.eqb c "0" && negb (String.eqb rest EmptyString) then None
      else match digits k 0 with
           | Some n => if (n <=? 4294967294)%N then Some n else None
           | None => None
           end
  end.

Definition index_of {V : Type} (e : string * V) : N :=
  match array_index (fst e) with Some n => n | None => 0%N end.

Definition is_index {V : Type} (e : string * V) : bool :=
  match array_index (fst e) with Some _ => true | None => false end.

(** [Object.entries(o)] / [Object.keys(o)]: array-index keys first, in
    ascending numeric order, then the other keys in creation order. *)
Definition Object_entries {V : Type} (o : list (string * V)) : list (string * V) :=
  sort (fun a b => Z.of_N (index_of a) - Z.of_N (index_of b))%Z
       (filter is_index o)
  ++ filter (fun e => negb (is_index e)) o.

Definition Object_keys {V : Type} (o : list (string * V)) : list string :=
  map fst (Object_entries o).

End JS.

(* ====================================================================== *)
(** ** Arithmetic in binary64                                              *)
(* ====================================================================== *)

(** IEEE 754 binary64 as specified by the standard library's
    [SpecFloat]: what an engine computes. *)
Module Binary64.

Definition of_Z (z : Z) : spec_float := binary_normalize 53 1024 z 0 false.

(** [count / total * 100] for two integers. *)
Definition share (count total : Z) : spec_float :=
  SFmul 53 1024 (SFdiv 53 1024 (of_Z count) (of_Z total)) (of_Z 100).

(** The number a count converts to. *)
Definition of_count (c : JS.count) : spec_float :=
  match c with
  | JS.Num n => of_Z (Z.of_nat n)
  | JS.Inherited _ _ => S754_nan
  end.

(** [Math.round(x)]: the integer nearest to [x], the greater one of two
    that are equally near; NaN and the infinities are returned as they
    are.  A finite [x] is [m * 2^e], negated when [s] is set. *)
Definition Math_round (x : spec_float) : spec_float :=
  match x with
  | S754_finite s m e =>
      if (0 <=? e)%Z then x
      else
        let d := (2 ^ (- e))%Z in
        let sm := if s then Z.neg m else Z.pos m in
        let n := ((2 * sm + d) / (2 * d))%Z in
        if (n =? 0)%Z then S754_zero s else of_Z n
  | _ => x
  end.

End Binary64.

(* ====================================================================== *)
(** ** The counter as a finite map                                         *)
(* ====================================================================== *)

(** A reference for the object literals above: a map from keys to
    numbers, kept in creation order, in which a key that is absent counts
    as 0.  The objects of the source agree with it on the keys that name
    no member of [Object.prototype]. *)
Module Counter.

Definition t := list (string * nat).

Fixpoint get_or_0 (k : string) (o : t) : nat :=
  match o with
  | [] => 0
  | (k', n) :: o' => if String.eqb k' k then n else get_or_0 k o'
  end.

Definition bump (k : string) (o : t) : t := JS.set k (get_or_0 k o + 1) o.

(** The counter filled from a collection by the key of each element. *)
Definition tally {A : Type} (keyOf : A -> string) (o : t) (xs : list A) : t :=
  fold_left (fun counts x => bump (keyOf x) counts) xs o.

(** The counter as an object of numeric counts. *)
Definition embed (o : t) : JS.object := map (fun e => (fst e, JS.Num (snd e))) o.

(** The entries of the counter, the greatest count first and entries of
    one count in the order of [Object.entries]. *)
Definition ranked (o : t) : t :=
  JS.sort (fun a b => Z.of_nat (snd b) - Z.of_nat (snd a))%Z (JS.Object_entries o).

End Counter.

(* ====================================================================== *)
(** ** Records of the store and outcomes of a fetch                        *)
(* ====================================================================== *)

Module Signal.
Record t : Set := mk
  { id : string; type : string; location : string;
    severity : string; created_at : string }.
End Signal.

Module Event.
Record t : Set := mk
  { id : string; title : string; location : string; severity : string;
    signal_count : nat; status : string; created_at : string }.
End Event.

Module Alert.
Record t : Set := mk
  { id : string; title : string; location : string;
    severity : string; issued_at : string }.
End Alert.

Module Fetch.

(** What [await getSignals()] and its siblings evaluate to: the promise
    is rejected (the [await] throws), or it is fulfilled with a result
    whose [data] may be null. *)
Inductive result (A : Type) : Type :=
| Rejected
| Fulfilled (data : option (list A)).
Arguments Rejected {A}.
Arguments Fulfilled {A} data.

(** [result.data || []] *)
Definition data_or_empty {A : Type} (d : option (list A)) : list A :=
  match d with Some l => l | None => [] end.

(** [await Promise.all([p, q])] followed by the [.data || []] of both
    results: [None] when either promise is rejected. *)
Definition all2 {A B : Type} (p : result A) (q : result B)
  : option (list A * list B) :=
  match p, q with
  | Fulfilled a, Fulfilled b => Some (data_or_empty a, data_or_empty b)
  | _, _ => None
  end.

End Fetch.

(** [xs.filter(p).length] *)
Definition count_if {A : Type} (p : A -> bool) (xs : list A) : nat :=
  length (filter p xs).

(** [xs.map((x, i) => f(x, i))], the index starting at [i]. *)
Fixpoint mapi_from {A B : Type} (f : A -> nat -> B) (i : nat) (xs : list A)
  : list B :=
  match xs with
  | [] => []
  | x :: xs' => f x i :: mapi_from f (S i) xs'
  end.

Definition total (ns : list nat) : nat := fold_right Nat.add 0 ns.

(* ====================================================================== *)
(** ** AdvancedAnalytics.tsx                                               *)
(* ====================================================================== *)

Module Analytics.

Module TrendDay.
Record t : Set := mk
  { date : string; signals : nat; high : nat; medium : nat; low : nat;
    anomaly : Q }.
End TrendDay.

Module SeverityCount.
Record t : Set := mk { severity : string; count : nat; color : string }.
End SeverityCount.

Module Hotspot.
Record t : Set := mk { location : string; count : JS.count; risk : string }.
End Hotspot.

Module TypeShare.
Record t : Set := mk { type : string; count : JS.count; percentage : spec_float }.
End TypeShare.

Module HourSlot.
Record t : Set := mk { hour : string; signals : nat; normalized : JS.number }.
End HourSlot.

Module RiskFactor.
Record t : Set := mk { factor : string; value : JS.number }.
End RiskFactor.

Record AnalyticsData : Set := mkData
  { signalTrends : list TrendDay.t;
    severityDistribution : list SeverityCount.t;
    locationHotspots : list Hotspot.t;
    typeBreakdown : list TypeShare.t;
    timePatterns : list HourSlot.t;
    riskAssessment : list RiskFactor.t }.

(** The component state. *)
Record State : Set := mkState
  { analyticsData : option AnalyticsData;
    timeRange : string;
    selectedMetric : string;
    isLoading : bool }.

(** What one call of [loadAnalyticsData] reads from the runtime; another
    call reads another record.  The loop of [generateSignalTrends] runs
    once per day offset [i]; each run reads the clock and draws one random
    number. *)
Record Runtime : Set := mkRuntime
  { (* [date.setDate(date.getDate() - i)] steps back by [i] days of local
       time; [date.toISOString().split('T')[0]] prints the date of that
       instant in UTC *)
    isoDate : nat -> string;
    (* [date.toLocaleDateString('en-US', ...)] of the same instant: the
       month and the day of local time *)
    localeDate : nat -> string;
    (* the value of the call of [Math.random()] number [k] of this refresh,
       counted from 0 *)
    random : nat -> Q;
    (* [new Date(created_at).getHours()]: an hour 0..23, or [None] for
       the NaN of a timestamp that does not parse *)
    getHours : string -> option nat }.

Definition severity_is (sev : string) (s : Signal.t) : bool :=
  String.eqb (Signal.severity s) sev.

Section Refresh.
Variable rt : Runtime.

(** *** generateSignalTrends *)

Definition days (range : string) : nat :=
  if String.eqb range "7d" then 7
  else if String.eqb range "30d" then 30 else 1.

Definition daySignals (signals : list Signal.t) (i : nat) : list Signal.t :=
  filter (fun signal => JS.startsWith (Signal.created_at signal) (isoDate rt i))
         signals.

(** The object pushed by the loop body for day offset [i], in the run
    number [run] of the loop. *)
Definition trendDay (signals : list Signal.t) (run i : nat) : TrendDay.t :=
  let ds := daySignals signals i in
  {| TrendDay.date := localeDate rt i;
     TrendDay.signals := length ds;
     TrendDay.high := count_if (severity_is "high") ds;
     TrendDay.medium := count_if (severity_is "medium") ds;
     TrendDay.low := count_if (severity_is "low") ds;
     TrendDay.anomaly := (random rt run * (3 # 10) + (1 # 10))%Q |}.

(** [for (let i = n - 1; i >= 0; i--) trends.push(...)] *)
Fixpoint trendLoop (signals : list Signal.t) (run n : nat) : list TrendDay.t :=
  match n with
  | 0 => []
  | S i => trendDay signals run i :: trendLoop signals (S run) i
  end.

Definition generateSignalTrends (signals : list Signal.t) (range : string)
  : list TrendDay.t :=
  trendLoop signals 0 (days range).

(** *** generateTimePatterns *)

(** [hourCounts[hour]++] *)
Fixpoint increment (hour : nat) (hourCounts : list nat) : list nat :=
  match hourCounts, hour with
  | [], _ => []
  | c :: cs, 0 => S c :: cs
  | c :: cs, S h => c :: increment h cs
  end.

Definition tally (hourCounts : list nat) (signal : Signal.t) : list nat :=
  match getHours rt (Signal.created_at signal) with
  | Some hour => increment hour hourCounts
  | None => hourCounts
  end.

Definition hourCounts (signals : list Signal.t) : list nat :=
  fold_left tally signals (repeat 0 24).

(** [hour.toString().padStart(2, '0')] *)
Definition pad2 (hour : nat) : string :=
  let s := JS.toString (Z.of_nat hour) in
  if (String.length s <? 2)%nat then "0" ++ s else s.

Definition hourSlot (counts : list nat) (count hour : nat) : HourSlot.t :=
  {| HourSlot.hour := pad2 hour ++ ":00";
     HourSlot.signals := count;
     HourSlot.normalized :=
       JS.mul (JS.div (JS.of_nat count)
                      (JS.Math_max (map JS.of_nat counts)))
              (JS.of_nat 100) |}.

Definition generateTimePatterns (signals : list Signal.t) : list HourSlot.t :=
  let counts := hourCounts signals in
  mapi_from (hourSlot counts) 0 counts.

(** *** The views computed inline by loadAnalyticsData *)

Definition severityDistributionOf (signals : list Signal.t)
  : list SeverityCount.t :=
  [ SeverityCount.mk "High" (count_if (severity_is "high") signals) "#ef4444";
    SeverityCount.mk "Medium" (count_if (severity_is "medium") signals) "#f59e0b";
    SeverityCount.mk "Low" (count_if (severity_is "low") signals) "#10b981" ].

Definition locationCounts (signals : list Signal.t) : JS.object :=
  fold_left
    (fun counts signal =>
       JS.bump (JS.first_segment (Signal.location signal)) counts)
    signals [].

Definition riskOf (count : JS.count) : string :=
  if JS.exceeds count 10 then "high"
  else if JS.exceeds count 5 then "medium" else "low".

Definition hotspotOf (e : string * JS.count) : Hotspot.t :=
  let '(location, count) := e in
  {| Hotspot.location := location; Hotspot.count := count;
     Hotspot.risk := riskOf count |}.

Definition locationHotspotsOf (signals : list Signal.t) : list Hotspot.t :=
  JS.slice0 10
    (JS.sort (fun a b => JS.difference (Hotspot.count b) (Hotspot.count a))
             (map hotspotOf (JS.Object_entries (locationCounts signals)))).

Definition typeCounts (signals : list Signal.t) : JS.object :=
  fold_left (fun counts signal => JS.bump (Signal.type signal) counts)
            signals [].

Definition typeShareOf (len : nat) (e : string * JS.count) : TypeShare.t :=
  let '(type, count) := e in
  {| TypeShare.type := type; TypeShare.count := count;
     TypeShare.percentage :=
       Binary64.Math_round
         (SFmul 53 1024
            (SFdiv 53 1024 (Binary64.of_count count)
                   (Binary64.of_Z (Z.of_nat len)))
            (Binary64.of_Z 100)) |}.

Definition typeBreakdownOf (signals : list Signal.t) : list TypeShare.t :=
  JS.sort (fun a b => JS.difference (TypeShare.count b) (TypeShare.count a))
          (map (typeShareOf (length signals))
               (JS.Object_entries (typeCounts signals))).

(** [severityDistribution[0].count] *)
Definition firstCount (dist : list SeverityCount.t) : nat :=
  match dist with
  | d :: _ => SeverityCount.count d
  | [] => 0
  end.

Definition riskAssessmentOf (signals : list Signal.t) (events : list Event.t)
  : list RiskFactor.t :=
  let len := length signals in
  [ RiskFactor.mk "Signal Volume"
      (JS.Math_min (JS.of_nat 100)
         (JS.mul (JS.div (JS.of_nat len) (JS.of_nat 100)) (JS.of_nat 100)));
    RiskFactor.mk "Severity Level"
      (JS.mul (JS.div (JS.of_nat (firstCount (severityDistributionOf signals)))
                      (JS.of_nat len))
              (JS.of_nat 100));
    RiskFactor.mk "Geographic Spread"
      (JS.Math_min (JS.of_nat 100)
         (JS.mul (JS.of_nat (length (JS.Object_keys (locationCounts signals))))
                 (JS.of_nat 10)));
    RiskFactor.mk "Event Frequency"
      (JS.Math_min (JS.of_nat 100)
         (JS.mul (JS.of_nat (length events)) (JS.of_nat 5)));
    RiskFactor.mk "Response Time" (JS.of_nat 85);
    RiskFactor.mk "Community Engagement" (JS.of_nat 70) ].

Definition derive (signals : list Signal.t) (events : list Event.t)
           (range : string) : AnalyticsData :=
  {| signalTrends := generateSignalTrends signals range;
     severityDistribution := severityDistributionOf signals;
     locationHotspots := locationHotspotsOf signals;
     typeBreakdown := typeBreakdownOf signals;
     timePatterns := generateTimePatterns signals;
     riskAssessment := riskAssessmentOf signals events |}.

(** *** loadAnalyticsData

    [setIsLoading(true)] first; then either the [try] block runs to
    [setAnalyticsData], or the [catch] logs to the console; the
    [finally] block ends with [setIsLoading(false)]. *)
Definition loading (st : State) : State :=
  {| analyticsData := analyticsData st; timeRange := timeRange st;
     selectedMetric := selectedMetric st; isLoading := true |}.

Definition loadAnalyticsData
           (signalsResult : Fetch.result Signal.t)
           (eventsResult : Fetch.result Event.t) (st : State) : State :=
  let st1 := loading st in
  let st2 :=
    match Fetch.all2 signalsResult eventsResult with
    | Some (signals, events) =>
        {| analyticsData := Some (derive signals events (timeRange st1));
           timeRange := timeRange st1;
           selectedMetric := selectedMetric st1;
           isLoading := isLoading st1 |}
    | None => st1
    end in
  {| analyticsData := analyticsData st2; timeRange := timeRange st2;
     selectedMetric := selectedMetric st2; isLoading := false |}.

End Refresh.

Definition initial : State :=
  {| analyticsData := None; timeRange := "7d";
     selectedMetric := "signals"; isLoading := true |}.

End Analytics.

(* ====================================================================== *)
(** ** NotificationCenter.tsx                                              *)
(* ====================================================================== *)

Module Notifications.

Record Notification : Set := mk
  { id : string;
    type : string;
    title : string;
    message : string;
    severity : string;
    timestamp : string;
    read : bool;
    actionUrl : option string }.

Record State : Set := mkState
  { notifications : list Notification;
    filter : string;
    isLoading : bool }.

Definition initial : State :=
  {| notifications := []; filter := "all"; isLoading := true |}.

(** What a merge reads from the runtime. *)
Record Runtime : Set := mkRuntime
  { (* [new Date(timestamp).getTime()] of a well-formed timestamp *)
    getTime : string -> Z;
    (* [new Date(Date.now() - 2 * 60 * 60 * 1000).toISOString()] *)
    twoHoursAgo : string }.

Definition ofAlert (alert : Alert.t) : Notification :=
  {| id := "alert-" ++ Alert.id alert;
     type := "alert";
     title := Alert.title alert;
     message := "Health alert issued for " ++ Alert.location alert;
     severity := Alert.severity alert;
     timestamp := Alert.issued_at alert;
     read := false;
     actionUrl := Some "/alerts" |}.

Definition isActive (event : Event.t) : bool :=
  String.eqb (Event.status event) "active".

Definition ofEvent (event : Event.t) : Notification :=
  {| id := "event-" ++ Event.id event;
     type := "event";
     title := Event.title event;
     message := JS.toString (Z.of_nat (Event.signal_count event))
                ++ " signals detected in " ++ Event.location event;
     severity := Event.severity event;
     timestamp := Event.created_at event;
     read := false;
     actionUrl := Some ("/event/" ++ Event.id event)%string |}.

Section Merge.
Variable rt : Runtime.

Definition alertNotifications (alerts : list Alert.t) : list Notification :=
  map ofAlert alerts.

Definition eventNotifications (events : list Event.t) : list Notification :=
  map ofEvent (List.filter isActive events).

Definition systemNotifications : list Notification :=
  [ {| id := "system-1";
       type := "system";
       title := "AI Model Updated";
       message := "Detection algorithms have been improved for better accuracy";
       severity := "low";
       timestamp := twoHoursAgo rt;
       read := false;
       actionUrl := None |} ].

(** [[...alertNotifications, ...eventNotifications, ...systemNotifications]] *)
Definition merged (alerts : list Alert.t) (events : list Event.t)
  : list Notification :=
  alertNotifications alerts ++ eventNotifications events ++ systemNotifications.

(** [new Date(n.timestamp).getTime()] *)
Definition time (n : Notification) : Z := getTime rt (timestamp n).

Definition byTimeDesc (a b : Notification) : Z := (time b - time a)%Z.

Definition allNotifications (alerts : list Alert.t) (events : list Event.t)
  : list Notification :=
  JS.slice0 20 (JS.sort byTimeDesc (merged alerts events)).

(** [loadNotifications]: on a rejected fetch the [catch] block logs
    to the console and the list is not set. *)
Definition loadNotifications
           (alertsResult : Fetch.result Alert.t)
           (eventsResult : Fetch.result Event.t) (st : State) : State :=
  {| notifications :=
       match Fetch.all2 alertsResult eventsResult with
       | Some (alerts, events) => allNotifications alerts events
       | None => notifications st
       end;
     filter := filter st;
     isLoading := false |}.

End Merge.

Definition setRead (notif : Notification) : Notification :=
  {| id := id notif; type := type notif; title := title notif;
     message := message notif; severity := severity notif;
     timestamp := timestamp notif; read := true;
     actionUrl := actionUrl notif |}.

Definition setNotifications (f : list Notification -> list Notification)
           (st : State) : State :=
  {| notifications := f (notifications st);
     filter := filter st; isLoading := isLoading st |}.

Definition markAsRead (target : string) : State -> State :=
  setNotifications
    (map (fun notif => if String.eqb (id notif) target then setRead notif
                       else notif)).

Definition markAllAsRead : State -> State :=
  setNotifications (map setRead).

Definition filteredNotifications (st : State) : list Notification :=
  List.filter
    (fun notif =>
       if String.eqb (filter st) "unread" then negb (read notif)
       else if String.eqb (filter st) "high" then String.eqb (severity notif) "high"
       else true)
    (notifications st).

Definition unreadCount (st : State) : nat :=
  count_if (fun n => negb (read n)) (notifications st).

End Notifications.

(* ====================================================================== *)
(** ** The real-time monitor component                                     *)
(* ====================================================================== *)

Module Monitor.

Record SignalUpdate : Set := mkUpdate
  { id : string;
    type : string;
    location : string;
    severity : string;
    timestamp : string;
    isNew : option bool }.

Record SystemStatus : Set := mkStatus
  { isConnected : bool;
    lastUpdate : string;
    signalsPerMinute : Z;
    systemHealth : string }.

Record Stats : Set := mkStats
  { totalToday : nat;
    highSeverity : nat;
    activeEvents : nat;
    avgResponseTime : string }.

Record State : Set := mkState
  { isMonitoring : bool;
    recentSignals : list SignalUpdate;
    systemStatus : SystemStatus;
    stats : Stats }.

(** The state at mount; [now] is [new Date().toISOString()]. *)
Definition initial (now : string) : State :=
  {| isMonitoring := true;
     recentSignals := [];
     systemStatus := {| isConnected := true; lastUpdate := now;
                        signalsPerMinute := 0; systemHealth := "healthy" |};
     stats := {| totalToday := 0; highSeverity := 0; activeEvents := 0;
                 avgResponseTime := "2.3s" |} |}.

(** What [loadInitialData] reads from the runtime. *)
Record LoadEnv : Set := mkLoadEnv
  { (* [new Date(created_at).getTime()] of a well-formed timestamp *)
    getTime : string -> Z;
    (* [new Date().toISOString().split('T')[0]] *)
    today : string;
    (* [new Date().toISOString()] *)
    loadedAt : string;
    (* [Math.random()] *)
    loadDraw : Q }.

(** What one run of [simulateRealTimeUpdate] reads from the runtime:
    the values of [Math.random()] in the order they are drawn, and the
    clock. *)
Record TickEnv : Set := mkTickEnv
  { arrival : Q;
    typeDraw : Q;
    locationDraw : Q;
    severityDraw : Q;
    (* [Date.now()] and [new Date().toISOString()] for the new signal *)
    nowMs : Z;
    nowIso : string;
    (* [new Date().toISOString()] for the status *)
    statusAt : string;
    rateDraw : Q;
    healthDraw : Q }.

Definition ofSignal (signal : Signal.t) : SignalUpdate :=
  {| id := Signal.id signal;
     type := Signal.type signal;
     location := Signal.location signal;
     severity := Signal.severity signal;
     timestamp := Signal.created_at signal;
     isNew := None |}.

(** [new Date(s.created_at).getTime()] *)
Definition createdAt (env : LoadEnv) (s : Signal.t) : Z :=
  getTime env (Signal.created_at s).

Definition byCreatedDesc (env : LoadEnv) (a b : Signal.t) : Z :=
  (createdAt env b - createdAt env a)%Z.

Definition isActive (e : Event.t) : bool := String.eqb (Event.status e) "active".

Definition isHigh (s : Signal.t) : bool := String.eqb (Signal.severity s) "high".

(** [loadInitialData].  [signals.sort] sorts the fetched array in
    place, so the later filters run over the sorted array. *)
Definition loadInitialData (env : LoadEnv)
           (signalsResult : Fetch.result Signal.t)
           (eventsResult : Fetch.result Event.t) (st : State) : State :=
  match Fetch.all2 signalsResult eventsResult with
  | Some (fetched, events) =>
      let signals := JS.sort (byCreatedDesc env) fetched in
      let recent := map ofSignal (JS.slice0 10 signals) in
      let todaySignals :=
        List.filter (fun s => JS.startsWith (Signal.created_at s) (today env))
                    signals in
      {| isMonitoring := isMonitoring st;
         recentSignals := recent;
         stats := {| totalToday := length todaySignals;
                     highSeverity := count_if isHigh signals;
                     activeEvents := count_if isActive events;
                     avgResponseTime := "2.3s" |};
         systemStatus :=
           {| isConnected := isConnected (systemStatus st);
              lastUpdate := loadedAt env;
              signalsPerMinute := (JS.Math_floor (loadDraw env * 5) + 1)%Z;
              systemHealth := systemHealth (systemStatus st) |} |}
  | None =>
      {| isMonitoring := isMonitoring st;
         recentSignals := recentSignals st;
         stats := stats st;
         systemStatus :=
           {| isConnected := false;
              lastUpdate := lastUpdate (systemStatus st);
              signalsPerMinute := signalsPerMinute (systemStatus st);
              systemHealth := "critical" |} |}
  end.

(** [pool[Math.floor(Math.random() * n)]]; a draw is in [0, 1), so the
    index is within the pool. *)
Definition pick (pool : list string) (draw : Q) : string :=
  nth (Z.to_nat (JS.Math_floor (draw * inject_Z (Z.of_nat (length pool)))))
      pool EmptyString.

Definition types : list string :=
  ["Cough"; "Fever"; "Respiratory"; "Environmental"].
Definition locations : list string :=
  ["Mumbai, Andheri"; "Delhi, Central"; "Bangalore, Tech Park"; "Chennai, T Nagar"].
Definition severities : list string := ["low"; "medium"; "high"].

(** [Math.random() > 0.7] *)
Definition arrives (env : TickEnv) : bool := negb (Qle_bool (arrival env) (7 # 10)).

Definition newSignal (env : TickEnv) : SignalUpdate :=
  {| id := "signal-" ++ JS.toString (nowMs env);
     type := pick types (typeDraw env);
     location := pick locations (locationDraw env);
     severity := pick severities (severityDraw env);
     timestamp := nowIso env;
     isNew := Some true |}.

Definition refreshStatus (env : TickEnv) (prev : SystemStatus) : SystemStatus :=
  {| isConnected := isConnected prev;
     lastUpdate := statusAt env;
     signalsPerMinute := (JS.Math_floor (rateDraw env * 8) + 1)%Z;
     systemHealth := if negb (Qle_bool (healthDraw env) (9 # 10)) then "warning"
                     else "healthy" |}.

(** [simulateRealTimeUpdate]; the callback handed to [setTimeout] is
    [clearNew] below, run by the scheduler at a later time. *)
Definition simulateRealTimeUpdate (env : TickEnv) (st : State) : State :=
  if arrives env then
    let s := newSignal env in
    {| isMonitoring := isMonitoring st;
       recentSignals := s :: JS.slice0 9 (recentSignals st);
       stats := {| totalToday := totalToday (stats st) + 1;
                   highSeverity := if String.eqb (severity s) "high"
                                   then highSeverity (stats st) + 1
                                   else highSeverity (stats st);
                   activeEvents := activeEvents (stats st);
                   avgResponseTime := avgResponseTime (stats st) |};
       systemStatus := refreshStatus env (systemStatus st) |}
  else
    {| isMonitoring := isMonitoring st;
       recentSignals := recentSignals st;
       stats := stats st;
       systemStatus := refreshStatus env (systemStatus st) |}.

(** The delayed callback: clear the flag of the entry with this id. *)
Definition clearNew (target : string) (st : State) : State :=
  {| isMonitoring := isMonitoring st;
     recentSignals :=
       map (fun signal =>
              if String.eqb (id signal) target
              then {| id := id signal; type := type signal;
                      location := location signal; severity := severity signal;
                      timestamp := timestamp signal; isNew := Some false |}
              else signal)
           (recentSignals st);
     stats := stats st;
     systemStatus := systemStatus st |}.

(** [setIsMonitoring(!isMonitoring)] *)
Definition toggleMonitoring (st : State) : State :=
  {| isMonitoring := negb (isMonitoring st);
     recentSignals := recentSignals st;
     stats := stats st;
     systemStatus := systemStatus st |}.

(** The transitions of the component: the one-shot load run by the
    effect, a tick of the interval while monitoring is on, a delayed
    callback, and the pause/resume button. *)
Inductive step : State -> State -> Prop :=
| step_load env sr er st :
    step st (loadInitialData env sr er st)
| step_tick env st :
    isMonitoring st = true ->
    step st (simulateRealTimeUpdate env st)
| step_clear target st :
    step st (clearNew target st)
| step_toggle st :
    step st (toggleMonitoring st).


End Monitor.

(* ====================================================================== *)
(** ** Vocabulary of the statements                                        *)
(* ====================================================================== *)

Module Spec.

(** Non-increasing order of a numeric key along an array. *)
Definition descending {A : Type} (key : A -> Z) (a b : A) : Prop :=
  (key b <= key a)%Z.

(** The risk tier of a group of [count] signals. *)
Definition tier (count : nat) (risk : string) : Prop :=
  (10 < count /\ risk = "high")
  \/ (5 < count <= 10 /\ risk = "medium")
  \/ (count <= 5 /\ risk = "low").

(** [count / total * 100] as an exact rational. *)
Definition share (count total : nat) : Q :=
  (inject_Z (Z.of_nat count) / inject_Z (Z.of_nat total) * 100)%Q.

End Spec.

Module Window.
Import Analytics.

(** The signal was created on one of the last [w] calendar days: its
    timestamp starts with the date of some day offset below [w]. *)
Definition within (rt : Runtime) (w : nat) (signal : Signal.t) : bool :=
  existsb (fun i => JS.startsWith (Signal.created_at signal) (isoDate rt i))
          (seq 0 w).

(** The window selectors and their sizes in days. *)
Definition selectors : list (string * nat) := [("1d", 1); ("7d", 7); ("30d", 30)].

(** What a bucket of the trend reads from the signals and the clock:
    all its fields but the anomaly score. *)
Definition readings (d : TrendDay.t) : string * nat * nat * nat * nat :=
  (TrendDay.date d, TrendDay.signals d, TrendDay.high d, TrendDay.medium d,
   TrendDay.low d).

End Window.

(* ====================================================================== *)
(** ** Sample inputs                                                       *)
(* ====================================================================== *)

Module Sample.

(** A runtime whose clock reads 31 January 2024, 12:00 UTC. *)
Definition day (i : nat) : string := JS.toString (Z.of_nat (31 - i)).

(** The hour field of an ISO timestamp [YYYY-MM-DDTHH:...]. *)
Definition hourOf (ts : string) : option nat :=
  match JS.digits (substring 11 2 ts) 0 with
  | Some h => if (String.length ts <? 13)%nat then None
              else if (h <? 24)%N then Some (N.to_nat h) else None
  | None => None
  end.

(** The digits of an ISO timestamp read as one number: an order
    embedding of the UTC timestamps of one format. *)
Fixpoint digitsOf (ts : string) (acc : N) : N :=
  match ts with
  | EmptyString => acc
  | String c rest => match JS.digit c with
                     | Some d => digitsOf rest (10 * acc + d)%N
                     | None => digitsOf rest acc
                     end
  end.

Definition getTime (ts : string) : Z := Z.of_N (digitsOf ts 0).

Definition runtime : Analytics.Runtime :=
  {| Analytics.isoDate := fun i => ("2024-01-" ++ day i)%string;
     Analytics.localeDate := fun i => ("Jan " ++ day i)%string;
     Analytics.random := fun _ => 1 # 2;
     Analytics.getHours := hourOf |}.

Definition signals : list Signal.t :=
  [ Signal.mk "s1" "Cough" "Mumbai,Andheri" "high" "2024-01-31T10:00:00Z";
    Signal.mk "s2" "Fever" "Mumbai,Andheri" "high" "2024-01-31T11:30:00Z";
    Signal.mk "s3" "Cough" "Delhi,Central" "low" "2024-01-30T09:15:00Z";
    Signal.mk "s4" "Cough" "Delhi,Central" "medium" "2023-12-01T09:15:00Z" ].

Definition events : list Event.t :=
  [ Event.mk "e1" "Cough cluster" "Mumbai" "high" 2 "active" "2024-01-31T11:45:00Z";
    Event.mk "e2" "Fever cluster" "Delhi" "low" 1 "resolved" "2024-01-30T10:00:00Z" ].

Definition alert (i : nat) : Alert.t :=
  Alert.mk (JS.toString (Z.of_nat i)) "Advisory" "Pune" "medium"
           "2024-01-31T08:00:00Z".

(** Twenty alerts; with the system notice the merge has 21 entries. *)
Definition alerts : list Alert.t := map alert (seq 0 20).

Definition notificationRuntime : Notifications.Runtime :=
  {| Notifications.getTime := getTime;
     Notifications.twoHoursAgo := "2024-01-31T10:00:00Z" |}.

Definition loadEnv : Monitor.LoadEnv :=
  {| Monitor.getTime := getTime;
     Monitor.today := "2024-01-31";
     Monitor.loadedAt := "2024-01-31T12:00:00Z";
     Monitor.loadDraw := 1 # 2 |}.

(** A tick on which a high-severity signal arrives. *)
Definition tickEnv : Monitor.TickEnv :=
  {| Monitor.arrival := 8 # 10;
     Monitor.typeDraw := 1 # 10;
     Monitor.locationDraw := 6 # 10;
     Monitor.severityDraw := 9 # 10;
     Monitor.nowMs := 1706702403000;
     Monitor.nowIso := "2024-01-31T12:00:03Z";
     Monitor.statusAt := "2024-01-31T12:00:03Z";
     Monitor.rateDraw := 1 # 4;
     Monitor.healthDraw := 1 # 2 |}.

(** The monitor after a load of the sample records, and after one more
    tick. *)
Definition loaded : Monitor.State :=
  Monitor.loadInitialData loadEnv (Fetch.Fulfilled (Some signals))
                          (Fetch.Fulfilled (Some events))
                          (Monitor.initial "2024-01-31T11:59:57Z").

Definition monitored : Monitor.State :=
  Monitor.simulateRealTimeUpdate tickEnv loaded.

(** The sample clock at a later refresh of the same day: the dates are
    the same, the draws of [Math.random()] are others. *)
Definition later : Analytics.Runtime :=
  {| Analytics.isoDate := Analytics.isoDate runtime;
     Analytics.localeDate := Analytics.localeDate runtime;
     Analytics.random := fun _ => 1 # 4;
     Analytics.getHours := hourOf |}.

(** A clock in London on 1 April 2024 at 00:30 local time, which is
    31 March, 23:30 UTC.  Summer time began on 31 March at 01:00, so the
    same local time one day back is 31 March, 00:30 UTC: the day offsets 0
    and 1 print the same ISO date.  Given for the offsets of a 30-day
    window. *)
Definition london : Analytics.Runtime :=
  {| Analytics.isoDate :=
       fun i => if (i =? 0)%nat then "2024-03-31"
                else ("2024-03-" ++ Analytics.pad2 (32 - i))%string;
     Analytics.localeDate :=
       fun i => if (i =? 0)%nat then "Apr 1"
                else ("Mar " ++ JS.toString (Z.of_nat (32 - i)))%string;
     Analytics.random := fun _ => 1 # 2;
     Analytics.getHours := hourOf |}.

(** One signal, created on 31 March at noon. *)
Definition noon : list Signal.t :=
  [ Signal.mk "s1" "Cough" "London,Camden" "low" "2024-03-31T12:00:00+00:00" ].

(** Eleven signals whose region and whose type name members of
    [Object.prototype]. *)
Definition shadowing : list Signal.t :=
  repeat (Signal.mk "s" "toString" "constructor,Hall" "high" "2024-01-31T10:00:00Z")
         11.

(** The analytics component after a first refresh whose fetch failed. *)
Definition afterFailure : Analytics.State :=
  Analytics.loadAnalyticsData runtime Fetch.Rejected Fetch.Rejected
                              Analytics.initial.

End Sample.

(* ====================================================================== *)
(** ** What the components render from their state                         *)
(* ====================================================================== *)

Module AnalyticsView.
Import Analytics.

(** The "Total Signals" card:
    [analyticsData?.signalTrends.reduce((sum, day) => sum + day.signals, 0) || 0] *)
Definition totalSignals (data : option AnalyticsData) : nat :=
  match data with
  | Some d => fold_left (fun sum day => sum + TrendDay.signals day) (signalTrends d) 0
  | None => 0
  end.

(** The "High Severity" card:
    [analyticsData?.severityDistribution.find(s => s.severity === 'High')?.count || 0] *)
Definition highSeverity (data : option AnalyticsData) : nat :=
  match data with
  | Some d =>
      match find (fun s => String.eqb (SeverityCount.severity s) "High")
                 (severityDistribution d) with
      | Some s => SeverityCount.count s
      | None => 0
      end
  | None => 0
  end.

(** The "Active Locations" card: [analyticsData?.locationHotspots.length || 0] *)
Definition activeLocations (data : option AnalyticsData) : nat :=
  match data with
  | Some d => length (locationHotspots d)
  | None => 0
  end.

(** The data of the bar chart: [analyticsData?.locationHotspots.slice(0, 8)] *)
Definition hotspotBars (data : option AnalyticsData) : option (list Hotspot.t) :=
  match data with
  | Some d => Some (JS.slice0 8 (locationHotspots d))
  | None => None
  end.

End AnalyticsView.

Module NotificationView.
Import Notifications.

(** The body of the panel: the spinner while loading, the filtered rows
    when there are some, the empty-state message otherwise. *)
Inductive body : Set :=
| Spinner
| Rows (rows : list Notification)
| NoNotifications (message : string).

Definition render (st : State) : body :=
  if isLoading st then Spinner
  else if (0 <? length (filteredNotifications st))%nat
       then Rows (filteredNotifications st)
       else NoNotifications
              (if String.eqb (filter st) "unread" then "All caught up!"
               else "No notifications to show").

(** [unreadCount > 0 && <button onClick={markAllAsRead}>] *)
Definition showsMarkAll (st : State) : bool := (0 <? unreadCount st)%nat.

(** The click handler of a row: [markAsRead(notification.id)], then
    [window.location.href = notification.actionUrl] when the url is
    truthy.  The result is the new state and the url navigated to. *)
Definition click (notification : Notification) (st : State)
  : State * option string :=
  (markAsRead (id notification) st,
   match actionUrl notification with
   | Some url => if String.eqb url "" then None else Some url
   | None => None
   end).

End NotificationView.

Module Regions.

(** The primary region of a signal and the distinct regions of a
    collection, in order of last appearance. *)
Definition region (s : Signal.t) : string := JS.first_segment (Signal.location s).

Definition distinct (signals : list Signal.t) : list string :=
  nodup string_dec (map region signals).

(** A severity the components recognise. *)
Definition known (s : Signal.t) : bool :=
  Analytics.severity_is "high" s || Analytics.severity_is "medium" s
  || Analytics.severity_is "low" s.

End Regions.

Module Hours.
Import Analytics.

(** The signal is tallied in the slot of hour [k]. *)
Definition at_hour (rt : Runtime) (k : nat) (s : Signal.t) : bool :=
  match getHours rt (Signal.created_at s) with
  | Some h => (h =? k)%nat
  | None => false
  end.

(** The signal's timestamp parses. *)
Definition parses (rt : Runtime) (s : Signal.t) : bool :=
  match getHours rt (Signal.created_at s) with
  | Some _ => true
  | None => false
  end.

End Hours.

Module Inbox.

(** The notification panel after a load of two alerts and the sample
    events. *)
Definition sample : Notifications.State :=
  Notifications.loadNotifications Sample.notificationRuntime
    (Fetch.Fulfilled (Some (firstn 2 Sample.alerts)))
    (Fetch.Fulfilled (Some Sample.events)) Notifications.initial.

(** Its most recent notification, of the active event. *)
Definition first : Notifications.Notification :=
  Notifications.ofEvent
    (Event.mk "e1" "Cough cluster" "Mumbai" "high" 2 "active" "2024-01-31T11:45:00Z").

(** What the user does to the panel between two loads. *)
Inductive action : Set :=
| MarkRead (target : string)
| MarkAll.

Definition perform (a : action) : Notifications.State -> Notifications.State :=
  match a with
  | MarkRead target => Notifications.markAsRead target
  | MarkAll => Notifications.markAllAsRead
  end.

Definition replay (actions : list action) (st : Notifications.State)
  : Notifications.State :=
  fold_left (fun s a => perform a s) actions st.

(** Some action of the list marks the notification. *)
Definition touched (actions : list action) (n : Notifications.Notification)
  : bool :=
  existsb (fun a => match a with
                    | MarkRead target => String.eqb (Notifications.id n) target
                    | MarkAll => true
                    end) actions.

End Inbox.

Module Schedule.

(** A run of the monitor: any number of its transitions, one after the
    other. *)
Inductive runs : Monitor.State -> Monitor.State -> Prop :=
| runs_here st : runs st st
| runs_then st st' st'' : runs st st' -> Monitor.step st' st'' -> runs st st''.

(** The signal with its highlight cleared. *)
Definition settled (s : Monitor.SignalUpdate) : Monitor.SignalUpdate :=
  {| Monitor.id := Monitor.id s; Monitor.type := Monitor.type s;
     Monitor.location := Monitor.location s; Monitor.severity := Monitor.severity s;
     Monitor.timestamp := Monitor.timestamp s; Monitor.isNew := Some false |}.

(** A value [Math.random()] can return. *)
Definition unit_draw (q : Q) : Prop := (0 <= q)%Q /\ (q < 1)%Q.

(** The monitor after a load whose fetch was rejected. *)
Definition failed : Monitor.State :=
  Monitor.loadInitialData Sample.loadEnv Fetch.Rejected Fetch.Rejected Sample.loaded.

End Schedule.

(* ====================================================================== *)
(** * Properties                                                           *)
(* ====================================================================== *)

Module Examples.

(** The ranking of three signals from two regions. *)
Example hotspots_of_three :
  Analytics.locationHotspotsOf
    [ Signal.mk "a" "Cough" "Mumbai,Andheri" "high" "2024-01-30T08:00:00Z";
      Signal.mk "b" "Cough" "Mumbai,Andheri" "high" "2024-01-30T09:00:00Z";
      Signal.mk "c" "Fever" "Delhi,Central" "low" "2024-01-31T08:00:00Z" ]
  = [ Analytics.Hotspot.mk "Mumbai" (JS.Num 2) "low";
      Analytics.Hotspot.mk "Delhi" (JS.Num 1) "low" ].
Proof. reflexivity. Qed.

Example typeBreakdown_of_sample :
  Analytics.typeBreakdownOf Sample.signals
  = [ Analytics.TypeShare.mk "Cough" (JS.Num 3) (Binary64.of_Z 75);
      Analytics.TypeShare.mk "Fever" (JS.Num 1) (Binary64.of_Z 25) ].
Proof. reflexivity. Qed.

(** 23 signals of 40: the quotient times 100 is just below 57.5 in
    binary64 and rounds to 57. *)
Example typeBreakdown_23_of_40 :
  map Analytics.TypeShare.percentage
      (Analytics.typeBreakdownOf
         (repeat (Signal.mk "a" "Cough" "Pune" "low" "2024-01-31T10:00:00Z") 23
          ++ repeat (Signal.mk "b" "Fever" "Pune" "low" "2024-01-31T10:00:00Z") 17))
  = [Binary64.of_Z 57; Binary64.of_Z 43].
Proof. vm_compute. reflexivity. Qed.

(** [Math.round] in binary64: 2.5 rounds to 3, -2.5 to -2 and 0.4 to 0. *)
Example round_halves :
  Binary64.Math_round (SFdiv 53 1024 (Binary64.of_Z 5) (Binary64.of_Z 2))
  = Binary64.of_Z 3
  /\ Binary64.Math_round (SFdiv 53 1024 (Binary64.of_Z (-5)) (Binary64.of_Z 2))
     = Binary64.of_Z (-2)
  /\ Binary64.Math_round (SFdiv 53 1024 (Binary64.of_Z 2) (Binary64.of_Z 5))
     = S754_zero false.
Proof. repeat split; vm_compute; reflexivity. Qed.

(** Array-index keys are enumerated first, in numeric order. *)
Example entries_order :
  JS.Object_entries [("b", 1); ("10", 2); ("2", 3); ("a", 4); ("01", 5)]
  = [("2", 3); ("10", 2); ("b", 1); ("a", 4); ("01", 5)].
Proof. reflexivity. Qed.

Example trends_of_sample :
  map Analytics.TrendDay.signals
      (Analytics.generateSignalTrends Sample.runtime Sample.signals "7d")
  = [0; 0; 0; 0; 0; 1; 2].
Proof. reflexivity. Qed.

Example timePatterns_of_sample :
  map Analytics.HourSlot.normalized
      (firstn 3 (skipn 9 (Analytics.generateTimePatterns Sample.runtime Sample.signals)))
  = [JS.of_nat 100; JS.of_nat 50; JS.of_nat 50].
Proof. reflexivity. Qed.

Example riskAssessment_of_sample :
  map Analytics.RiskFactor.value
      (Analytics.riskAssessmentOf Sample.signals Sample.events)
  = [JS.of_nat 4; JS.of_nat 50; JS.of_nat 20; JS.of_nat 10; JS.of_nat 85; JS.of_nat 70].
Proof. reflexivity. Qed.

(** Only the active event is notified; the most recent entry comes first. *)
Example notifications_of_sample :
  map Notifications.id
      (Notifications.allNotifications Sample.notificationRuntime
                                      (firstn 2 Sample.alerts) Sample.events)
  = ["event-e1"; "system-1"; "alert-0"; "alert-1"].
Proof. reflexivity. Qed.

Example tick_of_sample :
  map Monitor.id (Monitor.recentSignals Sample.monitored)
  = ["signal-1706702403000"; "s2"; "s1"; "s3"; "s4"]
  /\ Monitor.stats Sample.monitored
     = {| Monitor.totalToday := 3; Monitor.highSeverity := 3;
          Monitor.activeEvents := 1; Monitor.avgResponseTime := "2.3s" |}.
Proof. split; reflexivity. Qed.

End Examples.

Module JSFacts.

Section SortFacts.
Context {A : Type}.

Lemma insert_sorted_perm (cmp : A -> A -> Z) x l :
  Permutation (JS.insert_sorted cmp x l) (x :: l).
Proof.
  induction l as [|y l IH]; simpl; [reflexivity|].
  destruct (cmp x y <=? 0)%Z; [reflexivity|].
  rewrite IH. apply perm_swap.
Qed.

Lemma sort_perm (cmp : A -> A -> Z) l : Permutation (JS.sort cmp l) l.
Proof.
  induction l as [|x l IH]; simpl; [constructor|].
  rewrite insert_sorted_perm. now constructor.
Qed.

Lemma sort_length (cmp : A -> A -> Z) l : length (JS.sort cmp l) = length l.
Proof. apply Permutation_length, sort_perm. Qed.

Lemma sort_Forall (cmp : A -> A -> Z) (P : A -> Prop) l :
  Forall P l -> Forall P (JS.sort cmp l).
Proof.
  intros H. eapply Permutation_Forall; [|exact H].
  symmetry. apply sort_perm.
Qed.

Lemma sort_In (cmp : A -> A -> Z) x l : In x (JS.sort cmp l) <-> In x l.
Proof.
  split; apply Permutation_in; [|symmetry]; apply sort_perm.
Qed.

Variable key : A -> Z.

Lemma insert_sorted_desc x l :
  StronglySorted (Spec.descending key) l ->
  StronglySorted (Spec.descending key) (JS.insert_sorted (fun a b => key b - key a)%Z x l).
Proof.
  induction 1 as [|y l Hs IH Hy]; simpl.
  - repeat constructor.
  - destruct (Z.leb_spec (key y - key x) 0) as [Hle|Hgt].
    + constructor; [now constructor|].
      constructor; [unfold Spec.descending; lia|].
      eapply Forall_impl; [|exact Hy]. unfold Spec.descending. intros; lia.
    + constructor; [exact IH|].
      eapply Permutation_Forall.
      * symmetry. apply insert_sorted_perm.
      * constructor; [unfold Spec.descending; lia|exact Hy].
Qed.

Lemma sort_desc l :
  StronglySorted (Spec.descending key) (JS.sort (fun a b => key b - key a)%Z l).
Proof.
  induction l; simpl; [constructor|]. now apply insert_sorted_desc.
Qed.

Lemma firstn_StronglySorted (R : A -> A -> Prop) n l :
  StronglySorted R l -> StronglySorted R (firstn n l).
Proof.
  intros H. revert n. induction H as [|x l Hs IH Hx]; intros [|n]; simpl;
    try constructor; auto.
  apply Forall_forall. intros y Hy.
  rewrite Forall_forall in Hx. apply Hx.
  rewrite <- (firstn_skipn n l). apply in_or_app. now left.
Qed.

Lemma firstn_Forall (P : A -> Prop) n l :
  Forall P l -> Forall P (firstn n l).
Proof.
  intros H. rewrite <- (firstn_skipn n l) in H.
  now apply Forall_app in H.
Qed.

End SortFacts.
End JSFacts.

Module ObjectFacts.

Lemma get_set_same k v o : Counter.get_or_0 k (JS.set k v o) = v.
Proof.
  induction o as [|[k' n] o IH]; simpl.
  - now rewrite String.eqb_refl.
  - destruct (String.eqb k' k) eqn:E; simpl; rewrite E; auto.
Qed.

Lemma get_set_other k k' v o :
  k' <> k -> Counter.get_or_0 k' (JS.set k v o) = Counter.get_or_0 k' o.
Proof.
  intros Hne. induction o as [|[k0 n] o IH]; simpl.
  - destruct (String.eqb_spec k k'); congruence.
  - destruct (String.eqb_spec k0 k) as [->|Hk]; simpl.
    + destruct (String.eqb_spec k k'); congruence.
    + now rewrite IH.
Qed.

Lemma keys_set {V} k (v : V) o :
  map fst (JS.set k v o)
  = if in_dec string_dec k (map fst o) then map fst o else map fst o ++ [k].
Proof.
  induction o as [|[k0 n] o IH]; simpl; [reflexivity|].
  destruct (String.eqb_spec k0 k) as [->|Hk]; simpl.
  - destruct (string_dec k k); [reflexivity|congruence].
  - rewrite IH. destruct (string_dec k0 k); [congruence|].
    destruct (in_dec string_dec k (map fst o)); reflexivity.
Qed.

Lemma set_NoDup {V} k (v : V) o : NoDup (map fst o) -> NoDup (map fst (JS.set k v o)).
Proof.
  intros H. rewrite keys_set.
  destruct (in_dec string_dec k (map fst o)) as [|Hn]; [exact H|].
  apply NoDup_rev in H. rewrite <- (rev_involutive (map fst o ++ [k])).
  apply NoDup_rev. rewrite rev_app_distr. simpl. constructor; [|exact H].
  now rewrite <- in_rev.
Qed.

Lemma In_get k n o :
  NoDup (map fst o) -> In (k, n) o -> Counter.get_or_0 k o = n.
Proof.
  induction o as [|[k0 n0] o IH]; simpl; [tauto|].
  intros Hnd [Heq|Hin].
  - inversion Heq; subst. now rewrite String.eqb_refl.
  - inversion Hnd as [|? ? Hk0 Hnd']; subst.
    destruct (String.eqb_spec k0 k) as [->|_]; [|auto].
    exfalso. apply Hk0. change k with (fst (k, n)). now apply in_map.
Qed.

Section Tally.
Context {A : Type} (keyOf : A -> string).

Lemma tally_NoDup xs : forall o,
  NoDup (map fst o) -> NoDup (map fst (Counter.tally keyOf o xs)).
Proof.
  induction xs as [|x xs IH]; intros o H; simpl; [exact H|].
  apply IH. now apply set_NoDup.
Qed.

Lemma tally_get k xs : forall o,
  Counter.get_or_0 k (Counter.tally keyOf o xs)
  = Counter.get_or_0 k o + count_if (fun x => String.eqb (keyOf x) k) xs.
Proof.
  unfold count_if.
  induction xs as [|x xs IH]; intros o; simpl; [lia|].
  rewrite IH. unfold Counter.bump.
  destruct (String.eqb_spec (keyOf x) k) as [->|Hne]; simpl.
  - rewrite get_set_same. lia.
  - rewrite get_set_other by congruence. lia.
Qed.

(** Every property of the finished counter holds the number of
    elements with that key. *)
Lemma tally_counts xs k n :
  In (k, n) (Counter.tally keyOf [] xs) ->
  n = count_if (fun x => String.eqb (keyOf x) k) xs.
Proof.
  intros Hin. apply In_get in Hin.
  - now rewrite tally_get in Hin.
  - apply tally_NoDup. constructor.
Qed.

Lemma tally_positive xs : forall o,
  Forall (fun e => 0 < snd e) o -> Forall (fun e => 0 < snd e) (Counter.tally keyOf o xs).
Proof.
  induction xs as [|x xs IH]; intros o H; simpl; [exact H|].
  apply IH. unfold Counter.bump. generalize (Counter.get_or_0 (keyOf x) o). intros v.
  induction H as [|[k n] o Hn Ho IHo]; simpl.
  - repeat constructor. simpl. lia.
  - destruct (String.eqb k (keyOf x)); constructor; simpl in *; auto; lia.
Qed.
End Tally.

Lemma entries_perm {V} (o : list (string * V)) : Permutation (JS.Object_entries o) o.
Proof.
  unfold JS.Object_entries. rewrite JSFacts.sort_perm.
  induction o as [|e o IH]; simpl; [constructor|].
  destruct (JS.is_index e); simpl.
  - now constructor.
  - rewrite <- Permutation_middle. now constructor.
Qed.

Lemma entries_In {V} (e : string * V) o : In e (JS.Object_entries o) <-> In e o.
Proof. split; apply Permutation_in; [|symmetry]; apply entries_perm. Qed.

Lemma entries_nil {V} : JS.Object_entries (@nil (string * V)) = [].
Proof. reflexivity. Qed.

End ObjectFacts.

(** The object literals of the source and the reference counter agree on
    the keys that name no member of [Object.prototype]. *)
Module RefinementFacts.

Lemma own_embed_none k o :
  JS.own k (Counter.embed o) = None -> Counter.get_or_0 k o = 0.
Proof.
  induction o as [|[k' n] o IH]; simpl; [reflexivity|].
  destruct (String.eqb k' k); [discriminate|exact IH].
Qed.

Lemma own_embed_some k o c :
  JS.own k (Counter.embed o) = Some c -> c = JS.Num (Counter.get_or_0 k o).
Proof.
  induction o as [|[k' n] o IH]; simpl; [discriminate|].
  destruct (String.eqb k' k); [congruence|exact IH].
Qed.

Lemma set_embed k v o :
  JS.set k (JS.Num v) (Counter.embed o) = Counter.embed (JS.set k v o).
Proof.
  induction o as [|[k' n] o IH]; simpl; [reflexivity|].
  destruct (String.eqb k' k); simpl; [reflexivity|]. now rewrite IH.
Qed.

Lemma bump_embed k o :
  JS.ordinary k = true ->
  JS.bump k (Counter.embed o) = Counter.embed (Counter.bump k o).
Proof.
  unfold JS.ordinary, JS.bump, Counter.bump. intros Hk.
  apply andb_true_iff in Hk. destruct Hk as [Hp Hf].
  apply negb_true_iff in Hp, Hf.
  destruct (JS.own k (Counter.embed o)) as [c|] eqn:E.
  - apply own_embed_some in E. subst c. apply set_embed.
  - apply own_embed_none in E. rewrite Hp, Hf, E. apply set_embed.
Qed.

Lemma tally_embed {A} (keyOf : A -> string) xs : forall o,
  Forall (fun x => JS.ordinary (keyOf x) = true) xs ->
  fold_left (fun counts x => JS.bump (keyOf x) counts) xs (Counter.embed o)
  = Counter.embed (Counter.tally keyOf o xs).
Proof.
  induction xs as [|x xs IH]; intros o H; simpl; [reflexivity|].
  inversion H as [|? ? Hx Hxs]; subst.
  rewrite bump_embed by exact Hx. now apply IH.
Qed.

Lemma insert_sorted_map {A B} (f : A -> B) cmpA cmpB x l :
  (forall a b, cmpB (f a) (f b) = cmpA a b) ->
  JS.insert_sorted cmpB (f x) (map f l) = map f (JS.insert_sorted cmpA x l).
Proof.
  intros H. induction l as [|y l IH]; simpl; [reflexivity|].
  rewrite H. destruct (cmpA x y <=? 0)%Z; simpl; [reflexivity|]. now rewrite IH.
Qed.

(** Sorting commutes with a map that carries one comparator to the
    other. *)
Lemma sort_map {A B} (f : A -> B) cmpA cmpB l :
  (forall a b, cmpB (f a) (f b) = cmpA a b) ->
  JS.sort cmpB (map f l) = map f (JS.sort cmpA l).
Proof.
  intros H. induction l as [|x l IH]; simpl; [reflexivity|].
  rewrite IH. now apply insert_sorted_map.
Qed.

Lemma filter_map_fst {V W} (f : string * V -> string * W) (p : string -> bool) l :
  (forall e, fst (f e) = fst e) ->
  filter (fun e => p (fst e)) (map f l) = map f (filter (fun e => p (fst e)) l).
Proof.
  intros H. induction l as [|e l IH]; simpl; [reflexivity|].
  rewrite H. destruct (p (fst e)); simpl; now rewrite IH.
Qed.

(** [Object.entries] reads the keys only. *)
Lemma entries_map {V W} (f : string * V -> string * W) l :
  (forall e, fst (f e) = fst e) ->
  JS.Object_entries (map f l) = map f (JS.Object_entries l).
Proof.
  intros H. unfold JS.Object_entries. rewrite map_app. f_equal.
  - change (@JS.is_index W) with (fun e : string * W =>
              (fun k => match JS.array_index k with Some _ => true | None => false end)
                (fst e)).
    change (@JS.is_index V) with (fun e : string * V =>
              (fun k => match JS.array_index k with Some _ => true | None => false end)
                (fst e)).
    rewrite (filter_map_fst f _ l H).
    apply sort_map. intros a b. unfold JS.index_of. now rewrite !H.
  - change (fun e : string * W => negb (JS.is_index e)) with (fun e : string * W =>
              (fun k => negb match JS.array_index k with Some _ => true | None => false end)
                (fst e)).
    change (fun e : string * V => negb (JS.is_index e)) with (fun e : string * V =>
              (fun k => negb match JS.array_index k with Some _ => true | None => false end)
                (fst e)).
    apply filter_map_fst, H.
Qed.

Lemma entries_embed o :
  JS.Object_entries (Counter.embed o) = Counter.embed (JS.Object_entries o).
Proof. apply entries_map. reflexivity. Qed.

End RefinementFacts.

Module NumberFacts.

Lemma of_nat_zero n : JS.is_zero (inject_Z (Z.of_nat n)) = (n =? 0)%nat.
Proof.
  unfold JS.is_zero, Qeq_bool, inject_Z. simpl.
  rewrite Z.mul_1_r. destruct n; reflexivity.
Qed.

Lemma div_of_nat a b :
  0 < b ->
  JS.div (JS.of_nat a) (JS.of_nat b)
  = JS.Fin (Qred (inject_Z (Z.of_nat a) / inject_Z (Z.of_nat b))).
Proof.
  intros Hb. unfold JS.div, JS.of_nat, JS.of_Z. rewrite of_nat_zero.
  destruct (Nat.eqb_spec b 0); [lia|reflexivity].
Qed.

Lemma div_zero_zero : JS.div (JS.of_nat 0) (JS.of_nat 0) = JS.NaN.
Proof. reflexivity. Qed.

(** 0 / 0 * 100 is NaN in the model as it is in binary64. *)
Lemma share_zero_zero :
  JS.mul (JS.div (JS.of_nat 0) (JS.of_nat 0)) (JS.of_nat 100) = JS.NaN
  /\ Binary64.share 0 0 = S754_nan.
Proof. split; reflexivity. Qed.

(** [count / total * 100] for a positive total is the exact share. *)
Lemma share_of_nat a b :
  0 < b ->
  exists q, JS.mul (JS.div (JS.of_nat a) (JS.of_nat b)) (JS.of_nat 100) = JS.Fin q
            /\ (q == Spec.share a b)%Q.
Proof.
  intros Hb. rewrite div_of_nat by exact Hb.
  cbv [JS.mul JS.of_nat JS.of_Z].
  eexists; split; [reflexivity|].
  rewrite !Qred_correct. unfold Spec.share.
  change (inject_Z (Z.of_nat 100)) with 100%Q. reflexivity.
Qed.

Lemma share_range a b : a <= b -> 0 < b -> (0 <= Spec.share a b /\ Spec.share a b <= 100)%Q.
Proof.
  intros Hab Hb. unfold Spec.share.
  assert (H0 : (0 < inject_Z (Z.of_nat b))%Q).
  { change 0%Q with (inject_Z 0). rewrite <- Zlt_Qlt. lia. }
  assert (Ha : (0 <= inject_Z (Z.of_nat a))%Q).
  { change 0%Q with (inject_Z 0). rewrite <- Zle_Qle. lia. }
  assert (Hle : (inject_Z (Z.of_nat a) <= inject_Z (Z.of_nat b))%Q).
  { rewrite <- Zle_Qle. lia. }
  split.
  - apply Qmult_le_0_compat; [|discriminate].
    apply Qle_shift_div_l; [exact H0|]. now rewrite Qmult_0_l.
  - setoid_replace (100%Q) with (1 * 100)%Q at 2 by reflexivity.
    apply Qmult_le_compat_r; [|discriminate].
    apply Qle_shift_div_r; [exact H0|]. now rewrite Qmult_1_l.
Qed.

End NumberFacts.

Module AnalyticsFacts.
Import Analytics.

Lemma StronglySorted_weaken {A} (R R' : A -> A -> Prop) l :
  (forall a b, R a b -> R' a b) -> StronglySorted R l -> StronglySorted R' l.
Proof.
  intros HR. induction 1; constructor; auto.
  eapply Forall_impl; [|eassumption]. auto.
Qed.

Lemma StronglySorted_map {A B} (f : A -> B) (R : B -> B -> Prop) l :
  StronglySorted (fun a b => R (f a) (f b)) l -> StronglySorted R (map f l).
Proof.
  induction 1 as [|x l Hs IH Hx]; simpl; constructor; auto.
  apply Forall_map. exact Hx.
Qed.

Lemma riskOf_tier n : Spec.tier n (riskOf (JS.Num n)).
Proof.
  unfold Spec.tier, riskOf, JS.exceeds.
  destruct (Nat.ltb_spec 10 n); [left; split; [lia|reflexivity]|].
  destruct (Nat.ltb_spec 5 n); [right; left|right; right]; split;
    try lia; reflexivity.
Qed.

(** The text of an inherited member is not a number: whatever its
    length, the tier is low. *)
Lemma riskOf_inherited member ones : riskOf (JS.Inherited member ones) = "low".
Proof. reflexivity. Qed.

Lemma ranked_perm o : Permutation (Counter.ranked o) o.
Proof.
  unfold Counter.ranked. rewrite JSFacts.sort_perm. apply ObjectFacts.entries_perm.
Qed.

Lemma ranked_sorted o :
  StronglySorted (fun a b => snd b <= snd a) (Counter.ranked o).
Proof.
  eapply StronglySorted_weaken;
    [|apply (JSFacts.sort_desc (fun e : string * nat => Z.of_nat (snd e)))].
  unfold Spec.descending. intros; lia.
Qed.

Lemma embed_counts o : map snd (Counter.embed o) = map JS.Num (map snd o).
Proof. unfold Counter.embed. now rewrite !map_map. Qed.

Lemma locationCounts_embed signals :
  Forall (fun s => JS.ordinary (Regions.region s) = true) signals ->
  locationCounts signals = Counter.embed (Counter.tally Regions.region [] signals).
Proof. apply (RefinementFacts.tally_embed Regions.region signals []). Qed.

Lemma typeCounts_embed signals :
  Forall (fun s => JS.ordinary (Signal.type s) = true) signals ->
  typeCounts signals = Counter.embed (Counter.tally Signal.type [] signals).
Proof. apply (RefinementFacts.tally_embed Signal.type signals []). Qed.

(** With ordinary regions the ranking is that of the reference counter. *)
Lemma hotspots_embed signals :
  Forall (fun s => JS.ordinary (Regions.region s) = true) signals ->
  locationHotspotsOf signals
  = map hotspotOf
        (Counter.embed
           (firstn 10 (Counter.ranked (Counter.tally Regions.region [] signals)))).
Proof.
  intros H. unfold locationHotspotsOf, JS.slice0, Counter.ranked.
  rewrite (locationCounts_embed _ H), RefinementFacts.entries_embed.
  unfold Counter.embed. rewrite !map_map, <- firstn_map. f_equal.
  apply RefinementFacts.sort_map. reflexivity.
Qed.

Lemma typeBreakdown_embed signals :
  Forall (fun s => JS.ordinary (Signal.type s) = true) signals ->
  typeBreakdownOf signals
  = map (typeShareOf (length signals))
        (Counter.embed (Counter.ranked (Counter.tally Signal.type [] signals))).
Proof.
  intros H. unfold typeBreakdownOf, Counter.ranked.
  rewrite (typeCounts_embed _ H), RefinementFacts.entries_embed.
  unfold Counter.embed. rewrite !map_map.
  apply RefinementFacts.sort_map. reflexivity.
Qed.

Lemma hotspot_counts es : map Hotspot.count (map hotspotOf es) = map snd es.
Proof. rewrite map_map. apply map_ext. now intros [k n]. Qed.

Lemma hotspot_locations es : map Hotspot.location (map hotspotOf es) = map fst es.
Proof. rewrite map_map. apply map_ext. now intros [k n]. Qed.

Lemma typeShare_counts len es :
  map TypeShare.count (map (typeShareOf len) es) = map snd es.
Proof. rewrite map_map. apply map_ext. now intros [k n]. Qed.

Lemma typeShare_types len es :
  map TypeShare.type (map (typeShareOf len) es) = map fst es.
Proof. rewrite map_map. apply map_ext. now intros [k n]. Qed.

(** For regions that name no member of [Object.prototype] the ranking
    holds at most ten groups, in non-increasing order of count; a group's
    count is the number of signals of its region, and its risk tier is
    high above 10, medium above 5 and up to 10, low otherwise. *)
Lemma hotspots_ranked_ordinary (signals : list Signal.t) :
  Forall (fun s => JS.ordinary (Regions.region s) = true) signals ->
  let hs := locationHotspotsOf signals in
  exists ns,
    map Hotspot.count hs = map JS.Num ns
    /\ length hs <= 10
    /\ StronglySorted ge ns
    /\ Forall (fun h =>
                 exists n,
                   Hotspot.count h = JS.Num n
                   /\ n = count_if (fun s => String.eqb (Regions.region s)
                                                        (Hotspot.location h)) signals
                   /\ Spec.tier n (Hotspot.risk h)) hs.
Proof.
  intros H. cbv zeta. rewrite (hotspots_embed _ H).
  set (c := Counter.tally Regions.region [] signals).
  exists (map snd (firstn 10 (Counter.ranked c))).
  split; [now rewrite hotspot_counts, embed_counts|].
  split; [unfold Counter.embed; rewrite !length_map; apply firstn_le_length|].
  split.
  - apply StronglySorted_map, JSFacts.firstn_StronglySorted.
    eapply StronglySorted_weaken; [|apply ranked_sorted].
    cbv beta. intros; lia.
  - apply Forall_forall. intros h Hh.
    apply in_map_iff in Hh. destruct Hh as [[k v] [<- Hin]].
    apply in_map_iff in Hin. destruct Hin as [[k' n] [E Hin]].
    cbn [fst snd] in E. inversion E; subst k v.
    exists n. cbn [hotspotOf Hotspot.count Hotspot.location Hotspot.risk].
    split; [reflexivity|]. split; [|apply riskOf_tier].
    assert (Hc : In (k', n) c).
    { apply (Permutation_in _ (ranked_perm c)).
      rewrite <- (firstn_skipn 10 (Counter.ranked c)). apply in_or_app. now left. }
    apply (ObjectFacts.tally_counts Regions.region) in Hc. exact Hc.
Qed.

(** C4.  Eleven signals of the region "constructor": the counter reads
    the inherited member of [Object.prototype] on the first signal, the
    count of the group is the text of that member followed by eleven
    characters 1, and the risk tier is low where a group of eleven
    signals is to be high. *)
Theorem hotspots_shadowed_region :
  let hs := locationHotspotsOf Sample.shadowing in
  count_if (fun s => String.eqb (Regions.region s) "constructor") Sample.shadowing
  = 11
  /\ hs = [ Hotspot.mk "constructor" (JS.Inherited "constructor" 11) "low" ]
  /\ ~ Spec.tier 11 "low"
  /\ riskOf (JS.Num 11) = "high".
Proof.
  cbv zeta. split; [reflexivity|]. split; [reflexivity|]. split; [|reflexivity].
  unfold Spec.tier. intros [[_ H]|[[_ H]|[H _]]]; [discriminate H|discriminate H|lia].
Qed.

(** For types that name no member of [Object.prototype] every group of
    the breakdown comes from a non-empty collection, its count is the
    number of signals of its type, and its percentage is
    [Math.round(count / signals.length * 100)] as binary64 computes it. *)
Lemma typeBreakdown_ordinary (signals : list Signal.t) :
  Forall (fun s => JS.ordinary (Signal.type s) = true) signals ->
  Forall (fun g =>
            0 < length signals
            /\ exists n,
                 TypeShare.count g = JS.Num n
                 /\ n = count_if (fun s => String.eqb (Signal.type s)
                                                      (TypeShare.type g)) signals
                 /\ TypeShare.percentage g
                    = Binary64.Math_round
                        (Binary64.share (Z.of_nat n) (Z.of_nat (length signals))))
         (typeBreakdownOf signals).
Proof.
  intros H. rewrite (typeBreakdown_embed _ H).
  set (c := Counter.tally Signal.type [] signals).
  apply Forall_forall. intros g Hg.
  apply in_map_iff in Hg. destruct Hg as [[k v] [<- Hin]].
  apply in_map_iff in Hin. destruct Hin as [[k' n] [E Hin]].
  cbn [fst snd] in E. inversion E; subst k v.
  apply (Permutation_in _ (ranked_perm c)) in Hin.
  split.
  - destruct signals; [destruct Hin|simpl; lia].
  - exists n. split; [reflexivity|]. split; [|reflexivity].
    apply (ObjectFacts.tally_counts Signal.type) in Hin. exact Hin.
Qed.

(** On the empty collection the breakdown has no group, and nothing is
    divided. *)
Lemma typeBreakdown_empty : typeBreakdownOf [] = [].
Proof. reflexivity. Qed.

(** C5.  Eleven signals of the type "toString", and no other: the count
    of the group is the text of the inherited member followed by eleven
    characters 1, which converts to NaN, and the percentage is NaN where
    [round(11 / 11 * 100)] is 100. *)
Theorem typeBreakdown_shadowed_type :
  length Sample.shadowing = 11
  /\ count_if (fun s => String.eqb (Signal.type s) "toString") Sample.shadowing = 11
  /\ typeBreakdownOf Sample.shadowing
     = [ TypeShare.mk "toString" (JS.Inherited "toString" 11) S754_nan ]
  /\ Binary64.Math_round (Binary64.share 11 11) = Binary64.of_Z 100
  /\ S754_nan <> Binary64.of_Z 100.
Proof.
  split; [reflexivity|]. split; [reflexivity|]. split; [reflexivity|].
  split; [vm_compute; reflexivity|]. vm_compute. discriminate.
Qed.

End AnalyticsFacts.

Module TrendFacts.
Import Analytics.

Lemma prefix_same_length a : forall b s,
  String.prefix a s = true -> String.prefix b s = true ->
  String.length a = String.length b -> a = b.
Proof.
  induction a as [|c a IH]; intros [|d b] [|e s]; simpl; try discriminate; auto.
  destruct (ascii_dec c e) as [->|]; [|discriminate].
  destruct (ascii_dec d e) as [->|]; [|discriminate].
  intros Ha Hb Hlen. f_equal. apply (IH b s); auto.
Qed.

Lemma count_if_disjoint {A} (p q : A -> bool) (xs : list A) :
  (forall x, p x = true -> q x = true -> False) ->
  count_if (fun x => p x || q x) xs = count_if p xs + count_if q xs.
Proof.
  intros Hd. unfold count_if. induction xs as [|x xs IH]; simpl; [reflexivity|].
  destruct (p x) eqn:Hp, (q x) eqn:Hq; simpl; rewrite IH; try lia.
  exfalso. now apply (Hd x).
Qed.

Lemma count_if_ext {A} (p q : A -> bool) (xs : list A) :
  (forall x, p x = q x) -> count_if p xs = count_if q xs.
Proof.
  intros H. unfold count_if. f_equal. apply filter_ext. exact H.
Qed.

Section Loop.
Variable rt : Runtime.
Variable signals : list Signal.t.

Lemma trendLoop_length n : forall run, length (trendLoop rt signals run n) = n.
Proof. induction n; intros run; simpl; auto. Qed.

Lemma trendLoop_nth n : forall run k,
  k < n ->
  nth_error (trendLoop rt signals run n) k
  = Some (trendDay rt signals (run + k) (n - 1 - k)).
Proof.
  induction n as [|n IH]; intros run k Hk; [lia|].
  destruct k as [|k]; cbn [trendLoop nth_error].
  - do 2 f_equal; lia.
  - rewrite IH by lia. do 2 f_equal; lia.
Qed.

Lemma within_succ n s :
  Window.within rt (S n) s
  = Window.within rt n s || JS.startsWith (Signal.created_at s) (isoDate rt n).
Proof.
  unfold Window.within. rewrite seq_S, existsb_app. simpl.
  now rewrite orb_false_r.
Qed.

Lemma within_inv n s :
  Window.within rt n s = true ->
  exists i, i < n /\ JS.startsWith (Signal.created_at s) (isoDate rt i) = true.
Proof.
  unfold Window.within. intros H. apply existsb_exists in H.
  destruct H as [i [Hi Hp]]. apply in_seq in Hi. exists i. split; [lia|exact Hp].
Qed.

Lemma trendLoop_total n : forall run,
  (forall i, i < n -> String.length (isoDate rt i) = 10) ->
  (forall i j, i < n -> j < n -> isoDate rt i = isoDate rt j -> i = j) ->
  total (map TrendDay.signals (trendLoop rt signals run n))
  = count_if (Window.within rt n) signals.
Proof.
  induction n as [|n IH]; intros run Hlen Hinj.
  - unfold count_if, Window.within. simpl.
    induction signals; simpl; auto.
  - simpl. rewrite IH by (intros; auto).
    rewrite (count_if_ext _ _ _ (within_succ n)).
    rewrite count_if_disjoint.
    + unfold daySignals, count_if. lia.
    + intros s Hw Hp. apply within_inv in Hw. destruct Hw as [i [Hi Hpi]].
      unfold JS.startsWith in *.
      assert (isoDate rt i = isoDate rt n).
      { apply (prefix_same_length _ _ _ Hpi Hp). rewrite !Hlen; auto. }
      assert (i = n) by (apply Hinj; auto). lia.
Qed.
End Loop.

(** On a clock whose day offsets print pairwise distinct dates of ten
    characters: there is one bucket per day of the window, the bucket at
    position [k] is that of day offset [w - 1 - k] (oldest first), and the
    totals of the buckets add up to the number of signals whose timestamp
    starts with the date of a day of the window. *)
Lemma trends_on_distinct_days (rt : Runtime) (signals : list Signal.t)
      (range : string) (w : nat) :
  In (range, w) Window.selectors ->
  (forall i, i < w -> String.length (isoDate rt i) = 10) ->
  (forall i j, i < w -> j < w -> isoDate rt i = isoDate rt j -> i = j) ->
  let out := generateSignalTrends rt signals range in
  length out = w
  /\ (forall k, k < w -> nth_error out k = Some (trendDay rt signals k (w - 1 - k)))
  /\ total (map TrendDay.signals out) = count_if (Window.within rt w) signals.
Proof.
  intros Hsel Hlen Hinj out.
  assert (Hd : days range = w).
  { simpl in Hsel.
    destruct Hsel as [H|[H|[H|[]]]]; inversion H; subst; reflexivity. }
  subst out. unfold generateSignalTrends. rewrite Hd.
  split; [apply trendLoop_length|].
  split; [intros k Hk; now rewrite trendLoop_nth|].
  now apply trendLoop_total.
Qed.

Lemma sample_dates_length i :
  i < 7 -> String.length (isoDate Sample.runtime i) = 10.
Proof.
  intros Hi. do 7 (destruct i as [|i]; [reflexivity|]). lia.
Qed.

Lemma sample_dates_distinct i j :
  i < 7 -> j < 7 -> isoDate Sample.runtime i = isoDate Sample.runtime j -> i = j.
Proof.
  intros Hi Hj H.
  do 7 (destruct i as [|i];
        [do 7 (destruct j as [|j];
               [first [reflexivity | vm_compute in H; discriminate H]|]); lia|]).
  lia.
Qed.

(** C3.  A clock in London on 1 April 2024 at 00:30, the window of 7
    days, and a collection of one signal, created on 31 March at noon.
    The loop steps back by local days and prints each date in UTC: the
    day offsets 0 and 1 both print 2024-03-31, and the signal is counted
    in the bucket labelled Mar 31 and again in the bucket labelled Apr 1.
    The totals of the seven buckets add up to 2, where one signal is in
    the collection and within the window. *)
Theorem trends_double_count :
  let out := generateSignalTrends Sample.london Sample.noon "7d" in
  isoDate Sample.london 0 = "2024-03-31"
  /\ isoDate Sample.london 1 = "2024-03-31"
  /\ map TrendDay.date out
     = ["Mar 26"; "Mar 27"; "Mar 28"; "Mar 29"; "Mar 30"; "Mar 31"; "Apr 1"]
  /\ map TrendDay.signals out = [0; 0; 0; 0; 0; 1; 1]
  /\ total (map TrendDay.signals out) = 2
  /\ length Sample.noon = 1
  /\ count_if (Window.within Sample.london 7) Sample.noon = 1.
Proof. cbv zeta. repeat split; vm_compute; reflexivity. Qed.

End TrendFacts.

Module RiskFacts.
Import Analytics.

Lemma share_nonneg a b : 0 < b -> (0 <= Spec.share a b)%Q.
Proof.
  intros Hb. unfold Spec.share.
  apply Qmult_le_0_compat; [|discriminate].
  apply Qle_shift_div_l.
  - change 0%Q with (inject_Z 0). rewrite <- Zlt_Qlt. lia.
  - rewrite Qmult_0_l. change 0%Q with (inject_Z 0). rewrite <- Zle_Qle. lia.
Qed.

Lemma capped q : (0 <= q)%Q -> JS.in_0_100 (JS.Math_min (JS.of_nat 100) (JS.Fin q)).
Proof.
  intros Hq. cbv [JS.Math_min JS.of_nat JS.of_Z].
  destruct (Qle_bool (inject_Z (Z.of_nat 100)) q) eqn:E; simpl.
  - split; discriminate.
  - split; [exact Hq|].
    destruct (Qlt_le_dec q 100) as [Hlt|Hge]; [now apply Qlt_le_weak|].
    apply Qle_bool_iff in Hge. change (inject_Z (Z.of_nat 100)) with 100%Q in E.
    congruence.
Qed.

Lemma product_nonneg a b :
  exists q, JS.mul (JS.of_nat a) (JS.of_nat b) = JS.Fin q /\ (0 <= q)%Q.
Proof.
  cbv [JS.mul JS.of_nat JS.of_Z]. eexists; split; [reflexivity|].
  rewrite Qred_correct. apply Qmult_le_0_compat;
    change 0%Q with (inject_Z 0); rewrite <- Zle_Qle; lia.
Qed.

Lemma count_if_le {A} (p : A -> bool) xs : count_if p xs <= length xs.
Proof. apply filter_length_le. Qed.

(** X29.  With at least one signal, every factor is a number in [0, 100],
    and the Severity Level factor is the share of high-severity signals. *)
Lemma riskAssessment_in_range (signals : list Signal.t) (events : list Event.t) :
  signals <> [] ->
  Forall (fun f => JS.in_0_100 (RiskFactor.value f)) (riskAssessmentOf signals events)
  /\ exists q,
      nth_error (riskAssessmentOf signals events) 1
      = Some (RiskFactor.mk "Severity Level" (JS.Fin q))
      /\ (q == Spec.share (count_if (severity_is "high") signals) (length signals))%Q.
Proof.
  intros Hne.
  assert (Hpos : 0 < length signals) by (destruct signals; [congruence|simpl; lia]).
  unfold riskAssessmentOf.
  cbn [firstCount severityDistributionOf SeverityCount.count nth_error].
  destruct (NumberFacts.share_of_nat (length signals) 100 ltac:(lia)) as [v [Hv Hvq]].
  destruct (NumberFacts.share_of_nat (count_if (severity_is "high") signals)
              (length signals) Hpos) as [s [Hs Hsq]].
  destruct (product_nonneg (length (JS.Object_keys (locationCounts signals))) 10)
    as [g [Hg Hg0]].
  destruct (product_nonneg (length events) 5) as [e [He He0]].
  rewrite Hv, Hs, Hg, He. split.
  - repeat first [apply Forall_nil | apply Forall_cons]; cbn [RiskFactor.value].
    + apply capped. rewrite Hvq. apply share_nonneg. lia.
    + simpl. rewrite Hsq. apply NumberFacts.share_range; [apply count_if_le|exact Hpos].
    + now apply capped.
    + now apply capped.
    + simpl; split; discriminate.
    + simpl; split; discriminate.
  - exists s. split; [reflexivity|exact Hsq].
Qed.

(** C1, at the empty signal collection.  The Severity Level factor is
    0 / 0 * 100, which is NaN: not 0, and not a value of [0, 100]. *)
Theorem riskAssessment_no_signals (events : list Event.t) :
  nth_error (riskAssessmentOf [] events) 1
  = Some (RiskFactor.mk "Severity Level" JS.NaN)
  /\ ~ Forall (fun f => JS.in_0_100 (RiskFactor.value f)) (riskAssessmentOf [] events).
Proof.
  split; [reflexivity|].
  intros H. inversion H as [|? ? _ H1]; subst.
  inversion H1 as [|? ? Hsev _]; subst. exact Hsev.
Qed.

End RiskFacts.

Module TimePatternFacts.
Import Analytics.

Lemma increment_length h : forall cs, length (increment h cs) = length cs.
Proof. induction h; intros [|c cs]; simpl; auto. Qed.

Lemma mapi_from_length {A B} (f : A -> nat -> B) xs : forall i,
  length (mapi_from f i xs) = length xs.
Proof. induction xs; intros i; simpl; auto. Qed.

Lemma mapi_from_In {A B} (f : A -> nat -> B) xs y : forall i,
  In y (mapi_from f i xs) -> exists x j, In x xs /\ y = f x j.
Proof.
  induction xs as [|x xs IH]; intros i; simpl; [tauto|].
  intros [<-|H]; [exists x, i; auto|].
  destruct (IH _ H) as [x' [j [Hin ->]]]. exists x', j; auto.
Qed.

Section Patterns.
Variable rt : Runtime.

Lemma hourCounts_length signals : length (hourCounts rt signals) = 24.
Proof.
  unfold hourCounts. generalize (repeat_length 0 24).
  generalize (repeat 0 24). induction signals as [|s ss IH]; intros cs Hcs;
    simpl; [exact Hcs|].
  apply IH. unfold tally. destruct (getHours rt _); [|exact Hcs].
  now rewrite increment_length.
Qed.

(** There are always 24 slots. *)
Lemma timePatterns_length signals : length (generateTimePatterns rt signals) = 24.
Proof.
  unfold generateTimePatterns. rewrite mapi_from_length.
  apply hourCounts_length.
Qed.

Lemma Math_max_of_nat cs :
  cs <> [] -> JS.Math_max (map JS.of_nat cs) = JS.of_nat (list_max cs).
Proof.
  induction cs as [|c cs IH]; [congruence|]. intros _.
  destruct cs as [|c' cs].
  - simpl. now rewrite Nat.max_0_r.
  - change (JS.Math_max (map JS.of_nat (c :: c' :: cs)))
      with (JS.max2 (JS.of_nat c) (JS.Math_max (map JS.of_nat (c' :: cs)))).
    rewrite IH by congruence.
    change (list_max (c :: c' :: cs)) with (Nat.max c (list_max (c' :: cs))).
    generalize (list_max (c' :: cs)). intros m.
    cbv [JS.max2 JS.of_nat JS.of_Z].
    destruct (Qle_bool (inject_Z (Z.of_nat c)) (inject_Z (Z.of_nat m))) eqn:E.
    + apply Qle_bool_iff in E. rewrite <- Zle_Qle in E.
      now rewrite Nat.max_r by lia.
    + destruct (Nat.le_gt_cases c m) as [Hle|Hgt].
      * assert (Qle_bool (inject_Z (Z.of_nat c)) (inject_Z (Z.of_nat m)) = true).
        { apply Qle_bool_iff. rewrite <- Zle_Qle. lia. }
        congruence.
      * now rewrite Nat.max_l by lia.
Qed.

(** Once some bucket is non-empty, every slot's normalized value is
    count / maxBucketCount * 100, a number in [0, 100]. *)
Lemma timePatterns_normalized signals :
  0 < list_max (hourCounts rt signals) ->
  Forall (fun b =>
            exists q, HourSlot.normalized b = JS.Fin q
              /\ (q == Spec.share (HourSlot.signals b)
                                  (list_max (hourCounts rt signals)))%Q
              /\ JS.in_0_100 (HourSlot.normalized b))
         (generateTimePatterns rt signals).
Proof.
  intros Hmax. apply Forall_forall. intros b Hb.
  unfold generateTimePatterns in Hb.
  apply mapi_from_In in Hb. destruct Hb as [c [j [Hc ->]]].
  cbn [hourSlot HourSlot.normalized HourSlot.signals].
  rewrite Math_max_of_nat
    by (intros E; apply (f_equal (@length nat)) in E;
        rewrite hourCounts_length in E; discriminate).
  destruct (NumberFacts.share_of_nat c _ Hmax) as [q [-> Hq]].
  exists q. split; [reflexivity|]. split; [exact Hq|].
  simpl. rewrite Hq. apply NumberFacts.share_range; [|exact Hmax].
  pose proof (list_max_le (hourCounts rt signals) (list_max (hourCounts rt signals))) as [H _].
  specialize (H (Nat.le_refl _)). rewrite Forall_forall in H. now apply H.
Qed.

(** C2, at the empty signal collection.  There are 24 slots, and the
    normalized value of each is 0 / 0 * 100, which is NaN, not 0. *)
Theorem timePatterns_no_signals :
  length (generateTimePatterns rt []) = 24
  /\ Forall (fun b => HourSlot.signals b = 0 /\ HourSlot.normalized b = JS.NaN)
            (generateTimePatterns rt []).
Proof.
  split; [reflexivity|].
  repeat constructor.
Qed.
End Patterns.

End TimePatternFacts.

Module NotificationFacts.
Import Notifications.

(** The marks of a user change read flags only, and only to true: after
    a list of actions a notification is read when it was read before or
    some action marks it. *)
Lemma perform_notifications a st :
  notifications (Inbox.perform a st)
  = map (fun n => if Inbox.touched [a] n then setRead n else n) (notifications st).
Proof.
  destruct a as [target|]; cbn [Inbox.perform Inbox.touched existsb];
    unfold markAsRead, markAllAsRead, setNotifications; cbn [notifications];
    apply map_ext; intros n; now rewrite ?orb_false_r.
Qed.

Lemma touched_setRead actions n :
  Inbox.touched actions (setRead n) = Inbox.touched actions n.
Proof. reflexivity. Qed.

Lemma touched_cons a actions n :
  Inbox.touched (a :: actions) n = Inbox.touched [a] n || Inbox.touched actions n.
Proof. unfold Inbox.touched. cbn [existsb]. now rewrite orb_false_r. Qed.

Lemma replay_notifications actions : forall st,
  notifications (Inbox.replay actions st)
  = map (fun n => if Inbox.touched actions n then setRead n else n)
        (notifications st).
Proof.
  induction actions as [|a actions IH]; intros st.
  - cbn [Inbox.replay fold_left Inbox.touched existsb]. now rewrite map_id.
  - change (Inbox.replay (a :: actions) st)
      with (Inbox.replay actions (Inbox.perform a st)).
    rewrite IH, perform_notifications, map_map. apply map_ext. intros n.
    rewrite (touched_cons a actions n).
    destruct (Inbox.touched [a] n) eqn:E; cbn [orb].
    + rewrite touched_setRead. now destruct (Inbox.touched actions n).
    + reflexivity.
Qed.

Lemma replay_unreadCount actions st :
  unreadCount (Inbox.replay actions st)
  = count_if (fun n => negb (read n) && negb (Inbox.touched actions n))
             (notifications st).
Proof.
  unfold unreadCount. rewrite replay_notifications. unfold count_if.
  induction (notifications st) as [|n ns IH]; simpl; [reflexivity|].
  destruct (Inbox.touched actions n); simpl.
  - rewrite andb_false_r. exact IH.
  - rewrite andb_true_r. destruct (negb (read n)); simpl; now rewrite IH.
Qed.

Lemma count_if_split {A} (p : A -> bool) xs :
  count_if (fun x => negb (p x)) xs + count_if p xs = length xs.
Proof.
  unfold count_if. induction xs as [|x xs IH]; simpl; [reflexivity|].
  destruct (p x); simpl; lia.
Qed.

Section Merge.
Variable rt : Runtime.

Lemma merged_In alerts events n :
  In n (merged rt alerts events)
  <-> (exists a, In a alerts /\ n = ofAlert a)
      \/ (exists e, In e events /\ Event.status e = "active" /\ n = ofEvent e)
      \/ In n (systemNotifications rt).
Proof.
  unfold merged, alertNotifications, eventNotifications.
  rewrite !in_app_iff, !in_map_iff. split.
  - intros [[a [<- Ha]]|[[e [<- He]]|Hs]]; [left; eauto| |tauto].
    apply filter_In in He. destruct He as [He Hact].
    right; left. exists e. repeat split; auto.
    now apply String.eqb_eq.
  - intros [[a [Ha ->]]|[[e [He [Hact ->]]]|Hs]]; [left; eauto| |tauto].
    right; left. exists e. split; [reflexivity|].
    apply filter_In. split; [exact He|]. now apply String.eqb_eq.
Qed.

Lemma all_unread alerts events :
  Forall (fun n => read n = false) (merged rt alerts events).
Proof.
  unfold merged, alertNotifications, eventNotifications.
  rewrite !Forall_app. repeat split.
  - apply Forall_forall. intros n Hn. apply in_map_iff in Hn.
    now destruct Hn as [a [<- _]].
  - apply Forall_forall. intros n Hn. apply in_map_iff in Hn.
    now destruct Hn as [e [<- _]].
  - repeat constructor.
Qed.

Lemma count_if_all {A} (p : A -> bool) xs :
  Forall (fun x => p x = true) xs -> count_if p xs = length xs.
Proof.
  unfold count_if. induction 1 as [|x xs Hx _ IH]; simpl; [reflexivity|].
  rewrite Hx. simpl. now rewrite IH.
Qed.


(** C7, as the component computes it.  In the state of a merge, and in
    every state the user reaches from it by marking notifications as
    read, the notifications are those the merge kept, at most 20, and
    the unread count is the number of them that no action has marked:
    together with the marked ones they are as many as the merge has,
    capped at 20.  Right after the merge the unread count is that
    number. *)
Theorem unreadCount_of_retained
        (alerts : option (list Alert.t)) (events : option (list Event.t))
        (st : State) (actions : list Inbox.action) :
  let all := merged rt (Fetch.data_or_empty alerts) (Fetch.data_or_empty events) in
  let kept := JS.slice0 20 (JS.sort (byTimeDesc rt) all) in
  let loaded := loadNotifications rt (Fetch.Fulfilled alerts)
                                  (Fetch.Fulfilled events) st in
  let st' := Inbox.replay actions loaded in
  notifications loaded = kept
  /\ unreadCount loaded = Nat.min 20 (length all)
  /\ notifications st'
     = map (fun n => if Inbox.touched actions n then setRead n else n) kept
  /\ unreadCount st' = count_if (fun n => negb (read n)) (notifications st')
  /\ unreadCount st' = count_if (fun n => negb (Inbox.touched actions n)) kept
  /\ unreadCount st' + count_if (Inbox.touched actions) kept
     = Nat.min 20 (length all)
  /\ unreadCount st' <= 20.
Proof.
  cbv zeta.
  set (all := merged rt (Fetch.data_or_empty alerts) (Fetch.data_or_empty events)).
  set (kept := JS.slice0 20 (JS.sort (byTimeDesc rt) all)).
  set (loaded := loadNotifications rt (Fetch.Fulfilled alerts)
                                   (Fetch.Fulfilled events) st).
  assert (Hkept : notifications loaded = kept) by reflexivity.
  assert (Hlen : length kept = Nat.min 20 (length all)).
  { unfold kept, JS.slice0. now rewrite length_firstn, JSFacts.sort_length. }
  assert (Hunread : Forall (fun n => negb (read n) = true) kept).
  { unfold kept, JS.slice0. apply JSFacts.firstn_Forall, JSFacts.sort_Forall.
    eapply Forall_impl; [|apply all_unread].
    intros n Hn. simpl in Hn. now rewrite Hn. }
  assert (Hcount : forall actions',
             unreadCount (Inbox.replay actions' loaded)
             = count_if (fun n => negb (Inbox.touched actions' n)) kept).
  { intros actions'. rewrite replay_unreadCount, Hkept. unfold count_if. f_equal.
    clear - Hunread. induction Hunread as [|n ns Hn _ IH]; simpl; [reflexivity|].
    rewrite Hn, IH. reflexivity. }
  split; [exact Hkept|].
  split.
  { rewrite <- Hlen. change loaded with (Inbox.replay [] loaded).
    rewrite Hcount. now apply count_if_all, Forall_forall. }
  split; [now rewrite replay_notifications, Hkept|].
  split; [reflexivity|].
  split; [apply Hcount|].
  split; [now rewrite Hcount, count_if_split|].
  rewrite Hcount. etransitivity; [apply RiskFacts.count_if_le|].
  rewrite Hlen. apply Nat.le_min_l.
Qed.
End Merge.

Lemma setRead_idempotent n : setRead (setRead n) = setRead n.
Proof. reflexivity. Qed.

(** [markAllAsRead] twice is [markAllAsRead] once. *)
Lemma markAllAsRead_idempotent st :
  markAllAsRead (markAllAsRead st) = markAllAsRead st.
Proof.
  unfold markAllAsRead, setNotifications. cbn [notifications filter isLoading].
  f_equal. rewrite map_map. apply map_ext. intros n. apply setRead_idempotent.
Qed.

(** [markAsRead] of an id no notification carries changes nothing. *)
Lemma markAsRead_unknown target st :
  Forall (fun n => id n <> target) (notifications st) ->
  markAsRead target st = st.
Proof.
  destruct st as [ns f l]. unfold markAsRead, setNotifications.
  cbn [notifications filter isLoading]. intros H. f_equal.
  induction H as [|n ns Hn _ IH]; simpl; [reflexivity|].
  destruct (String.eqb_spec (id n) target); [contradiction|]. now rewrite IH.
Qed.

(** After [markAllAsRead] nothing is unread. *)
Lemma unreadCount_markAllAsRead st : unreadCount (markAllAsRead st) = 0.
Proof.
  unfold unreadCount, markAllAsRead, setNotifications, count_if.
  cbn [notifications]. induction (notifications st); simpl; auto.
Qed.

(** C7, as stated, fails: twenty alerts and the system notice merge into
    21 unread notifications, of which the component keeps and counts 20.
    When the user marks the first alert as read, 20 notifications of the
    merge are still unread and the component counts 19; when the user
    marks all as read, the one that was dropped is still unread and the
    component counts 0. *)
Lemma unreadCount_misses_dropped :
  let st := loadNotifications Sample.notificationRuntime
              (Fetch.Fulfilled (Some Sample.alerts)) (Fetch.Fulfilled (Some []))
              initial in
  let full := merged Sample.notificationRuntime Sample.alerts [] in
  unreadCount st = 20
  /\ count_if (fun n => negb (read n)) full = 21
  /\ unreadCount st <> count_if (fun n => negb (read n)) full
  /\ length (notifications (markAsRead "alert-0" st)) = 20
  /\ unreadCount (markAsRead "alert-0" st) = 19
  /\ count_if (fun n => negb (read n) && negb (String.eqb (id n) "alert-0")) full
     = 20
  /\ unreadCount (markAllAsRead st) = 0
  /\ count_if (fun n => negb (read n) && negb (existsb (String.eqb (id n))
                                                     (map id (notifications st))))
              full = 1.
Proof.
  cbv zeta.
  assert (H1 : unreadCount
                 (loadNotifications Sample.notificationRuntime
                    (Fetch.Fulfilled (Some Sample.alerts)) (Fetch.Fulfilled (Some []))
                    initial) = 20) by (vm_compute; reflexivity).
  assert (H2 : count_if (fun n => negb (read n))
                 (merged Sample.notificationRuntime Sample.alerts []) = 21)
    by (vm_compute; reflexivity).
  rewrite H1, H2. split; [reflexivity|]. split; [reflexivity|].
  split; [discriminate|]. repeat split; vm_compute; reflexivity.
Qed.

End NotificationFacts.

Module FailureFacts.

(** C8, as the components handle it.  When a fetch is rejected, neither
    component replaces what it derived before.  The monitor marks its
    status disconnected and critical; the analytics component has no
    health status and only ends its loading flag. *)
Theorem fetch_failure_retains_views
        (env : Monitor.LoadEnv) (rt : Analytics.Runtime)
        (signalsResult : Fetch.result Signal.t) (eventsResult : Fetch.result Event.t)
        (m : Monitor.State) (a : Analytics.State) :
  Fetch.all2 signalsResult eventsResult = None ->
  (let m' := Monitor.loadInitialData env signalsResult eventsResult m in
   Monitor.recentSignals m' = Monitor.recentSignals m
   /\ Monitor.stats m' = Monitor.stats m
   /\ Monitor.isMonitoring m' = Monitor.isMonitoring m
   /\ Monitor.systemStatus m'
      = {| Monitor.isConnected := false;
           Monitor.lastUpdate := Monitor.lastUpdate (Monitor.systemStatus m);
           Monitor.signalsPerMinute := Monitor.signalsPerMinute (Monitor.systemStatus m);
           Monitor.systemHealth := "critical" |})
  /\ (let a' := Analytics.loadAnalyticsData rt signalsResult eventsResult a in
      Analytics.analyticsData a' = Analytics.analyticsData a
      /\ Analytics.timeRange a' = Analytics.timeRange a
      /\ Analytics.selectedMetric a' = Analytics.selectedMetric a
      /\ Analytics.isLoading a' = false).
Proof.
  intros Hfail. cbv zeta.
  unfold Monitor.loadInitialData, Analytics.loadAnalyticsData.
  rewrite Hfail. simpl. repeat split.
Qed.

Lemma fetch_failure_retains_views_witness :
  Fetch.all2 (@Fetch.Rejected Signal.t) (Fetch.Fulfilled (Some Sample.events)) = None
  /\ Monitor.recentSignals
       (Monitor.loadInitialData Sample.loadEnv Fetch.Rejected
                                (Fetch.Fulfilled (Some Sample.events)) Sample.loaded)
     = Monitor.recentSignals Sample.loaded
  /\ Monitor.systemStatus
       (Monitor.loadInitialData Sample.loadEnv Fetch.Rejected
                                (Fetch.Fulfilled (Some Sample.events)) Sample.loaded)
     = {| Monitor.isConnected := false;
          Monitor.lastUpdate := "2024-01-31T12:00:00Z";
          Monitor.signalsPerMinute := 3;
          Monitor.systemHealth := "critical" |}
  /\ Analytics.analyticsData
       (Analytics.loadAnalyticsData Sample.runtime Fetch.Rejected
                                    (Fetch.Fulfilled (Some Sample.events))
                                    Analytics.initial)
     = None.
Proof.
  assert (Hfail : Fetch.all2 (@Fetch.Rejected Signal.t)
                             (Fetch.Fulfilled (Some Sample.events)) = None)
    by reflexivity.
  split; [exact Hfail|].
  pose proof (fetch_failure_retains_views
                Sample.loadEnv Sample.runtime Fetch.Rejected
                (Fetch.Fulfilled (Some Sample.events))
                Sample.loaded Analytics.initial Hfail)
    as [[Hrecent [_ [_ Hstatus]]] [Hdata _]].
  split; [exact Hrecent|]. split; [exact Hstatus|exact Hdata].
Defined.

(** C8, as stated, fails: a refresh of the analytics component whose
    fetch is rejected, started from the state a failed refresh leaves,
    ends in that very state.  No indicator has changed. *)
Lemma analytics_failure_unsurfaced :
  Fetch.all2 (@Fetch.Rejected Signal.t) (@Fetch.Rejected Event.t) = None
  /\ Analytics.loadAnalyticsData Sample.runtime Fetch.Rejected Fetch.Rejected
                                 Sample.afterFailure
     = Sample.afterFailure.
Proof. split; reflexivity. Qed.

End FailureFacts.

Module PickFacts.
Import Monitor.

(** A draw of [Math.random()] selects a member of the pool. *)
Lemma pick_in_pool (pool : list string) (draw : Q) :
  pool <> [] -> (0 <= draw)%Q -> (draw < 1)%Q -> In (pick pool draw) pool.
Proof.
  intros Hne H0 H1. unfold pick, JS.Math_floor. apply nth_In.
  set (n := inject_Z (Z.of_nat (length pool))).
  assert (Hn : (0 < n)%Q).
  { unfold n. change 0%Q with (inject_Z 0). rewrite <- Zlt_Qlt.
    destruct pool; [congruence|simpl; lia]. }
  assert (Hlo : (0 <= Qfloor (draw * n))%Z).
  { change 0%Z with (Qfloor 0). apply Qfloor_resp_le.
    apply Qmult_le_0_compat; [exact H0|now apply Qlt_le_weak]. }
  assert (Hhi : (Qfloor (draw * n) < Z.of_nat (length pool))%Z).
  { rewrite Zlt_Qlt. fold n.
    apply Qle_lt_trans with (draw * n)%Q; [apply Qfloor_le|].
    setoid_replace n with (1 * n)%Q at 2 by (now rewrite Qmult_1_l).
    now apply Qmult_lt_compat_r. }
  lia.
Qed.

Example pick_severity : pick severities (9 # 10) = "high".
Proof. reflexivity. Qed.

End PickFacts.

Module MonitorFacts.
Import Monitor.








(** C10.  A tick on which a signal arrives adds 1 to totalToday, adds 1
    to highSeverity exactly when the new signal's severity is high, and
    leaves activeEvents and avgResponseTime as they were; a tick on which
    none arrives leaves the stats and the recency buffer as they were. *)
Theorem tick_frame (env : TickEnv) (st : State) :
  let st' := simulateRealTimeUpdate env st in
  if arrives env
  then totalToday (stats st') = totalToday (stats st) + 1
       /\ ((severity (newSignal env) = "high"
            /\ highSeverity (stats st') = highSeverity (stats st) + 1)
           \/ (severity (newSignal env) <> "high"
               /\ highSeverity (stats st') = highSeverity (stats st)))
       /\ activeEvents (stats st') = activeEvents (stats st)
       /\ avgResponseTime (stats st') = avgResponseTime (stats st)
  else stats st' = stats st /\ recentSignals st' = recentSignals st.
Proof.
  cbv zeta. unfold simulateRealTimeUpdate.
  destruct (arrives env); cbn [stats recentSignals totalToday highSeverity
                               activeEvents avgResponseTime].
  - split; [reflexivity|]. split; [|split; reflexivity].
    destruct (String.eqb_spec (severity (newSignal env)) "high") as [Hh|Hh];
      [left|right]; split; auto.
  - split; reflexivity.
Qed.

End MonitorFacts.


(* ====================================================================== *)
(** * Further properties of the components                                 *)
(* ====================================================================== *)

Module CounterFacts.

Lemma total_app xs ys : total (xs ++ ys) = total xs + total ys.
Proof. unfold total. induction xs; simpl; auto. rewrite IHxs. lia. Qed.

Lemma total_perm xs ys : Permutation xs ys -> total xs = total ys.
Proof. unfold total. induction 1; simpl; lia. Qed.

Lemma fold_left_total {A} (f : A -> nat) xs : forall acc,
  fold_left (fun sum x => sum + f x) xs acc = acc + total (map f xs).
Proof.
  unfold total. induction xs as [|x xs IH]; intros acc; simpl; [lia|].
  rewrite IH. lia.
Qed.

Lemma bump_total k o :
  total (map snd (Counter.bump k o)) = total (map snd o) + 1.
Proof.
  unfold Counter.bump, total. induction o as [|[k' n] o IH]; simpl; [reflexivity|].
  destruct (String.eqb k' k); simpl; [lia|]. rewrite IH. lia.
Qed.

Lemma bump_keys k o x :
  In x (map fst (Counter.bump k o)) <-> x = k \/ In x (map fst o).
Proof.
  unfold Counter.bump. rewrite ObjectFacts.keys_set.
  destruct (in_dec string_dec k (map fst o)) as [Hin|Hn].
  - split; [tauto|]. intros [->|H]; assumption.
  - rewrite in_app_iff. simpl. split; [intros [H|[H|[]]]; auto|].
    intros [->|H]; auto.
Qed.

Section Tally.
Context {A : Type} (keyOf : A -> string).

Lemma tally_total xs : forall o,
  total (map snd (Counter.tally keyOf o xs)) = total (map snd o) + length xs.
Proof.
  unfold Counter.tally.
  induction xs as [|x xs IH]; intros o; simpl; [lia|].
  rewrite IH, bump_total. lia.
Qed.

Lemma tally_keys xs k : forall o,
  In k (map fst (Counter.tally keyOf o xs))
  <-> In k (map fst o) \/ In k (map keyOf xs).
Proof.
  unfold Counter.tally.
  induction xs as [|x xs IH]; intros o; simpl; [tauto|].
  rewrite IH, bump_keys. split; [intros [[->|H]|H]|intros [H|[<-|H]]]; auto.
Qed.

(** The counter has one property per distinct key. *)
Lemma tally_size xs :
  length (Counter.tally keyOf [] xs)
  = length (nodup string_dec (map keyOf xs)).
Proof.
  rewrite <- (length_map fst). apply Permutation_length.
  apply NoDup_Permutation.
  - apply ObjectFacts.tally_NoDup. constructor.
  - apply NoDup_nodup.
  - intros k. rewrite tally_keys, nodup_In. simpl. tauto.
Qed.
End Tally.

(** The keys of an object literal used as a counter, whatever the keys
    are: one property per distinct key that is assignable. *)
Lemma own_keys {V} k (o : list (string * V)) :
  JS.own k o = None <-> ~ In k (map fst o).
Proof.
  induction o as [|[k' v] o IH]; simpl; [tauto|].
  destruct (String.eqb_spec k' k) as [->|Hne].
  - split; [discriminate|]. intros H. exfalso. apply H. now left.
  - rewrite IH. tauto.
Qed.

Lemma object_bump_keys k o x :
  In x (map fst (JS.bump k o))
  <-> (x = k /\ JS.assignable k = true) \/ In x (map fst o).
Proof.
  unfold JS.bump, JS.assignable.
  destruct (JS.own k o) as [c|] eqn:E.
  - assert (Hin : In k (map fst o)).
    { destruct (in_dec string_dec k (map fst o)) as [H|H]; [exact H|].
      apply own_keys in H. congruence. }
    assert (Hset : forall v : JS.count, map fst (JS.set k v o) = map fst o).
    { intros v. rewrite ObjectFacts.keys_set.
      destruct (in_dec string_dec k (map fst o)); [reflexivity|contradiction]. }
    destruct c; rewrite Hset; split; auto; intros [[-> _]|H]; auto.
  - apply own_keys in E.
    assert (Hset : forall v : JS.count, map fst (JS.set k v o) = map fst o ++ [k]).
    { intros v. rewrite ObjectFacts.keys_set.
      destruct (in_dec string_dec k (map fst o)); [contradiction|reflexivity]. }
    destruct (String.eqb k "__proto__"); cbn [negb].
    + split; auto. intros [[_ H]|H]; [discriminate H|exact H].
    + destruct (existsb (String.eqb k) JS.prototype_functions);
        rewrite Hset, in_app_iff; simpl; split;
        try (intros [H|[H|[]]]; auto); intros [[-> _]|H]; auto.
Qed.

Lemma object_bump_NoDup k o :
  NoDup (map fst o) -> NoDup (map fst (JS.bump k o)).
Proof.
  intros H. unfold JS.bump.
  destruct (JS.own k o) as [[n|member ones]|];
    [now apply ObjectFacts.set_NoDup|now apply ObjectFacts.set_NoDup|].
  destruct (String.eqb k "__proto__"); [exact H|].
  destruct (existsb (String.eqb k) JS.prototype_functions);
    now apply ObjectFacts.set_NoDup.
Qed.

Section ObjectTally.
Context {A : Type} (keyOf : A -> string).

Lemma object_tally_keys xs k : forall o,
  In k (map fst (fold_left (fun counts x => JS.bump (keyOf x) counts) xs o))
  <-> In k (map fst o) \/ (In k (map keyOf xs) /\ JS.assignable k = true).
Proof.
  induction xs as [|x xs IH]; intros o; simpl; [tauto|].
  rewrite IH, object_bump_keys. split.
  - intros [[[-> H]|H]|[H H']]; auto.
  - intros [H|[[<-|H] H']]; auto.
Qed.

Lemma object_tally_NoDup xs : forall o,
  NoDup (map fst o) ->
  NoDup (map fst (fold_left (fun counts x => JS.bump (keyOf x) counts) xs o)).
Proof.
  induction xs as [|x xs IH]; intros o H; simpl; [exact H|].
  apply IH. now apply object_bump_NoDup.
Qed.

Lemma object_tally_size xs :
  length (fold_left (fun counts x => JS.bump (keyOf x) counts) xs [])
  = length (filter JS.assignable (nodup string_dec (map keyOf xs))).
Proof.
  rewrite <- (length_map fst). apply Permutation_length.
  apply NoDup_Permutation.
  - apply object_tally_NoDup. constructor.
  - apply NoDup_filter, NoDup_nodup.
  - intros k. rewrite object_tally_keys, filter_In, nodup_In. simpl. tauto.
Qed.
End ObjectTally.

Lemma entries_keys_NoDup {V} (o : list (string * V)) :
  NoDup (map fst o) -> NoDup (map fst (JS.Object_entries o)).
Proof.
  intros H. eapply Permutation_NoDup; [|exact H].
  apply Permutation_map. symmetry. apply ObjectFacts.entries_perm.
Qed.

Lemma firstn_NoDup {A} n (l : list A) : NoDup l -> NoDup (firstn n l).
Proof.
  intros H. rewrite <- (firstn_skipn n l) in H.
  now apply NoDup_app_remove_r in H.
Qed.

Lemma firstn_total_le n l : total (firstn n l) <= total l.
Proof.
  rewrite <- (firstn_skipn n l) at 2. rewrite total_app. lia.
Qed.

Lemma first_segment_fixed s :
  JS.first_segment (JS.first_segment s) = JS.first_segment s.
Proof.
  induction s as [|c s IH]; simpl; [reflexivity|].
  destruct (Ascii.eqb c ",") eqn:E; simpl; [reflexivity|].
  now rewrite E, IH.
Qed.

End CounterFacts.

Module BreakdownFacts.
Import Analytics.

Lemma assignable_iff k : JS.assignable k = true <-> k <> "__proto__".
Proof.
  unfold JS.assignable. destruct (String.eqb_spec k "__proto__"); simpl; split;
    congruence.
Qed.

Lemma ordinary_assignable k : JS.ordinary k = true -> JS.assignable k = true.
Proof. unfold JS.ordinary. intros H. now apply andb_true_iff in H. Qed.

Lemma filter_all {A} (p : A -> bool) l :
  (forall x, In x l -> p x = true) -> filter p l = l.
Proof.
  induction l as [|x l IH]; simpl; intros H; [reflexivity|].
  rewrite (H x) by auto. f_equal. apply IH. auto.
Qed.

Lemma distinct_ordinary signals :
  Forall (fun s => JS.ordinary (Regions.region s) = true) signals ->
  filter JS.assignable (Regions.distinct signals) = Regions.distinct signals.
Proof.
  intros H. apply filter_all. intros k Hk. unfold Regions.distinct in Hk.
  apply nodup_In, in_map_iff in Hk. destruct Hk as [s [<- Hs]].
  rewrite Forall_forall in H. now apply ordinary_assignable, H.
Qed.

(** The number of properties of the region counter. *)
Lemma locationCounts_size signals :
  length (locationCounts signals)
  = length (filter JS.assignable (Regions.distinct signals)).
Proof. apply (CounterFacts.object_tally_size Regions.region). Qed.

Lemma locationCounts_keys signals k :
  In k (map fst (locationCounts signals))
  <-> In k (map Regions.region signals) /\ k <> "__proto__".
Proof.
  unfold locationCounts.
  rewrite (CounterFacts.object_tally_keys Regions.region signals k []).
  rewrite assignable_iff. simpl. tauto.
Qed.

Lemma typeCounts_keys signals k :
  In k (map fst (typeCounts signals))
  <-> In k (map Signal.type signals) /\ k <> "__proto__".
Proof.
  unfold typeCounts.
  rewrite (CounterFacts.object_tally_keys Signal.type signals k []).
  rewrite assignable_iff. simpl. tauto.
Qed.

(** X1.  The type breakdown has one group per type of a signal, but for a
    type named [__proto__], which has none: the groups have pairwise
    distinct types.  When no type names a member of [Object.prototype]
    the breakdown partitions the signals: the counts are numbers, in
    non-increasing order, and add up to the number of signals. *)
Theorem typeBreakdown_partition (signals : list Signal.t) :
  NoDup (map TypeShare.type (typeBreakdownOf signals))
  /\ (forall t, In t (map TypeShare.type (typeBreakdownOf signals))
                <-> In t (map Signal.type signals) /\ t <> "__proto__")
  /\ (Forall (fun s => JS.ordinary (Signal.type s) = true) signals ->
      exists ns,
        map TypeShare.count (typeBreakdownOf signals) = map JS.Num ns
        /\ StronglySorted ge ns
        /\ total ns = length signals).
Proof.
  assert (Hk : Permutation (map TypeShare.type (typeBreakdownOf signals))
                           (map fst (typeCounts signals))).
  { unfold typeBreakdownOf.
    rewrite (Permutation_map TypeShare.type (JSFacts.sort_perm _ _)).
    rewrite AnalyticsFacts.typeShare_types.
    apply Permutation_map, ObjectFacts.entries_perm. }
  split; [|split].
  - eapply Permutation_NoDup; [symmetry; exact Hk|].
    apply (CounterFacts.object_tally_NoDup Signal.type). constructor.
  - intros t. rewrite <- typeCounts_keys.
    split; apply Permutation_in; [|symmetry]; exact Hk.
  - intros H. rewrite (AnalyticsFacts.typeBreakdown_embed _ H).
    set (c := Counter.tally Signal.type [] signals).
    exists (map snd (Counter.ranked c)).
    split; [now rewrite AnalyticsFacts.typeShare_counts, AnalyticsFacts.embed_counts|].
    split.
    + apply AnalyticsFacts.StronglySorted_map.
      eapply AnalyticsFacts.StronglySorted_weaken;
        [|apply AnalyticsFacts.ranked_sorted].
      cbv beta. intros; lia.
    + rewrite (CounterFacts.total_perm _ _
                 (Permutation_map snd (AnalyticsFacts.ranked_perm c))).
      unfold c. rewrite CounterFacts.tally_total. reflexivity.
Qed.

Lemma sample_types_ordinary :
  Forall (fun s => JS.ordinary (Signal.type s) = true) Sample.signals.
Proof. repeat first [apply Forall_nil | apply Forall_cons]; reflexivity. Qed.

Lemma typeBreakdown_partition_witness :
  Forall (fun s => JS.ordinary (Signal.type s) = true) Sample.signals
  /\ exists ns,
       map TypeShare.count (typeBreakdownOf Sample.signals) = map JS.Num ns
       /\ StronglySorted ge ns
       /\ total ns = length Sample.signals.
Proof.
  split; [exact sample_types_ordinary|].
  exact (proj2 (proj2 (typeBreakdown_partition Sample.signals))
               sample_types_ordinary).
Defined.

(** X2.  The hotspot ranking has one group per distinct region, up to ten,
    but for a region named [__proto__], which has none.  Its regions are
    pairwise distinct and carry no comma.  When no region names a member
    of [Object.prototype] the counts are positive numbers that add up to
    at most the number of signals, and to exactly that number when there
    are no more than ten regions. *)
Theorem hotspots_cover_regions (signals : list Signal.t) :
  let hs := locationHotspotsOf signals in
  length hs = Nat.min 10 (length (filter JS.assignable (Regions.distinct signals)))
  /\ NoDup (map Hotspot.location hs)
  /\ Forall (fun h => In (Hotspot.location h) (Regions.distinct signals)
                      /\ JS.first_segment (Hotspot.location h) = Hotspot.location h
                      /\ Hotspot.location h <> "__proto__") hs
  /\ (Forall (fun s => JS.ordinary (Regions.region s) = true) signals ->
      length hs = Nat.min 10 (length (Regions.distinct signals))
      /\ exists ns,
           map Hotspot.count hs = map JS.Num ns
           /\ Forall (fun n => 0 < n) ns
           /\ total ns <= length signals
           /\ (length (Regions.distinct signals) <= 10 ->
               total ns = length signals)).
Proof.
  cbv zeta.
  assert (Hlen : length (locationHotspotsOf signals)
                 = Nat.min 10 (length (filter JS.assignable
                                              (Regions.distinct signals)))).
  { unfold locationHotspotsOf, JS.slice0.
    rewrite length_firstn, JSFacts.sort_length, length_map.
    rewrite (Permutation_length (ObjectFacts.entries_perm _)).
    now rewrite locationCounts_size. }
  split; [exact Hlen|].
  assert (Hk : Permutation (map Hotspot.location
                              (JS.sort (fun a b => JS.difference (Hotspot.count b)
                                                                 (Hotspot.count a))
                                 (map hotspotOf
                                      (JS.Object_entries (locationCounts signals)))))
                           (map fst (locationCounts signals))).
  { rewrite (Permutation_map Hotspot.location (JSFacts.sort_perm _ _)).
    rewrite AnalyticsFacts.hotspot_locations.
    apply Permutation_map, ObjectFacts.entries_perm. }
  split.
  { unfold locationHotspotsOf, JS.slice0.
    rewrite <- firstn_map. apply CounterFacts.firstn_NoDup.
    eapply Permutation_NoDup; [symmetry; exact Hk|].
    apply (CounterFacts.object_tally_NoDup Regions.region). constructor. }
  split.
  { unfold locationHotspotsOf, JS.slice0.
    apply JSFacts.firstn_Forall. apply Forall_forall. intros h Hh.
    apply (in_map Hotspot.location) in Hh.
    apply (Permutation_in _ Hk), locationCounts_keys in Hh.
    destruct Hh as [Hin Hp].
    split; [unfold Regions.distinct; now apply nodup_In|].
    split; [|exact Hp].
    apply in_map_iff in Hin. destruct Hin as [s [<- _]].
    apply CounterFacts.first_segment_fixed. }
  intros H.
  split; [now rewrite Hlen, distinct_ordinary|].
  rewrite (AnalyticsFacts.hotspots_embed _ H).
  set (c := Counter.tally Regions.region [] signals).
  assert (Htot : total (map snd (Counter.ranked c)) = length signals).
  { rewrite (CounterFacts.total_perm _ _
               (Permutation_map snd (AnalyticsFacts.ranked_perm c))).
    unfold c. rewrite CounterFacts.tally_total. reflexivity. }
  exists (map snd (firstn 10 (Counter.ranked c))).
  split; [now rewrite AnalyticsFacts.hotspot_counts, AnalyticsFacts.embed_counts|].
  split.
  { apply Forall_map, JSFacts.firstn_Forall.
    eapply Permutation_Forall; [symmetry; apply AnalyticsFacts.ranked_perm|].
    apply (ObjectFacts.tally_positive Regions.region signals []). constructor. }
  split.
  { rewrite <- Htot, <- firstn_map. apply CounterFacts.firstn_total_le. }
  intros Hsmall. rewrite firstn_all2; [exact Htot|].
  rewrite (Permutation_length (AnalyticsFacts.ranked_perm c)).
  unfold c. rewrite CounterFacts.tally_size. exact Hsmall.
Qed.

Lemma sample_regions_ordinary :
  Forall (fun s => JS.ordinary (Regions.region s) = true) Sample.signals.
Proof. repeat first [apply Forall_nil | apply Forall_cons]; reflexivity. Qed.

Lemma hotspots_cover_regions_witness :
  Forall (fun s => JS.ordinary (Regions.region s) = true) Sample.signals
  /\ length (locationHotspotsOf Sample.signals)
     = Nat.min 10 (length (Regions.distinct Sample.signals)).
Proof.
  split; [exact sample_regions_ordinary|].
  exact (proj1 (proj2 (proj2 (proj2 (hotspots_cover_regions Sample.signals)))
                      sample_regions_ordinary)).
Defined.

(** A region named [__proto__] creates no property in the counter: the
    ranking has no group for it. *)
Example hotspots_without_proto :
  locationHotspotsOf
    [ Signal.mk "s1" "Cough" "__proto__,North" "high" "2024-01-31T10:00:00Z";
      Signal.mk "s2" "Cough" "Pune,West" "low" "2024-01-31T11:00:00Z" ]
  = [ Hotspot.mk "Pune" (JS.Num 1) "low" ].
Proof. reflexivity. Qed.

End BreakdownFacts.

Module SeverityFacts.
Import Analytics.

Lemma severity_is_exclusive a b s :
  a <> b -> severity_is a s = true -> severity_is b s = true -> False.
Proof.
  unfold severity_is. intros Hne Ha Hb.
  apply String.eqb_eq in Ha, Hb. congruence.
Qed.

(** The three severity counts of a collection count its signals of a
    recognised severity, each once. *)
Lemma severity_split (xs : list Signal.t) :
  count_if (severity_is "high") xs + count_if (severity_is "medium") xs
  + count_if (severity_is "low") xs
  = count_if Regions.known xs.
Proof.
  unfold Regions.known.
  rewrite (TrendFacts.count_if_disjoint
             (fun s => severity_is "high" s || severity_is "medium" s)
             (severity_is "low")).
  - rewrite (TrendFacts.count_if_disjoint (severity_is "high") (severity_is "medium")).
    + reflexivity.
    + intros s. apply severity_is_exclusive. discriminate.
  - intros s H Hl. apply orb_true_iff in H. destruct H as [H|H];
      revert H Hl; apply severity_is_exclusive; discriminate.
Qed.

Lemma known_all xs :
  Forall (fun s => Regions.known s = true) xs -> count_if Regions.known xs = length xs.
Proof. apply NotificationFacts.count_if_all. Qed.

(** X3.  The severity distribution has the slices High, Medium and Low, in
    this order.  Their counts add up to the number of signals of a
    recognised severity: a signal of any other severity is in no slice,
    and the slices cover the collection when there is none. *)
Theorem severityDistribution_counts (signals : list Signal.t) :
  map SeverityCount.severity (severityDistributionOf signals) = ["High"; "Medium"; "Low"]
  /\ total (map SeverityCount.count (severityDistributionOf signals))
     = count_if Regions.known signals
  /\ total (map SeverityCount.count (severityDistributionOf signals)) <= length signals
  /\ (Forall (fun s => Regions.known s = true) signals ->
      total (map SeverityCount.count (severityDistributionOf signals)) = length signals).
Proof.
  assert (E : total (map SeverityCount.count (severityDistributionOf signals))
              = count_if Regions.known signals).
  { rewrite <- severity_split. unfold total. simpl. lia. }
  split; [reflexivity|]. split; [exact E|]. rewrite E. split.
  - apply RiskFacts.count_if_le.
  - apply known_all.
Qed.

(** X4.  In every bucket of the trend the three severity counts add up to at
    most the bucket's total, and to the total when every signal of the
    collection has a recognised severity. *)
Theorem trend_buckets_consistent (rt : Runtime) (signals : list Signal.t)
        (range : string) :
  Forall (fun d => TrendDay.high d + TrendDay.medium d + TrendDay.low d
                   <= TrendDay.signals d)
         (generateSignalTrends rt signals range)
  /\ (Forall (fun s => Regions.known s = true) signals ->
      Forall (fun d => TrendDay.high d + TrendDay.medium d + TrendDay.low d
                       = TrendDay.signals d)
             (generateSignalTrends rt signals range)).
Proof.
  unfold generateSignalTrends. generalize (days range) as n. generalize 0 as run.
  intros run n. split.
  - revert run. induction n as [|n IH]; intros run; simpl; constructor; [|apply IH].
    cbn [trendDay TrendDay.high TrendDay.medium TrendDay.low TrendDay.signals].
    rewrite severity_split. apply RiskFacts.count_if_le.
  - intros Hknown. revert run.
    induction n as [|n IH]; intros run; simpl; constructor; [|apply IH].
    cbn [trendDay TrendDay.high TrendDay.medium TrendDay.low TrendDay.signals].
    rewrite severity_split. apply known_all.
    unfold daySignals. rewrite Forall_forall in Hknown |- *.
    intros s Hs. apply filter_In in Hs. now apply Hknown.
Qed.

Lemma readings_agree (rt rt' : Runtime) (signals : list Signal.t) n :
  forall run run',
  (forall i, i < n -> isoDate rt' i = isoDate rt i
                      /\ localeDate rt' i = localeDate rt i) ->
  map Window.readings (trendLoop rt signals run n)
  = map Window.readings (trendLoop rt' signals run' n).
Proof.
  induction n as [|n IH]; intros run run' H; [reflexivity|].
  cbn [trendLoop map]. f_equal.
  - destruct (H n) as [Hi Hl]; [lia|].
    unfold Window.readings, trendDay, daySignals.
    cbn [TrendDay.date TrendDay.signals TrendDay.high TrendDay.medium TrendDay.low].
    now rewrite Hi, Hl.
  - apply IH. intros i Hi. apply H. lia.
Qed.

(** X5.  Widening the window keeps what the recent buckets read from the
    signals and the clock.  For two refreshes whose clocks print the same
    dates for the last 7 days, the last 7 buckets of the 30-day trend of
    one and the 7-day trend of the other have the same labels and counts,
    and so have the last bucket of the 7-day trend and the 1-day trend;
    the anomaly scores are drawn anew.  Any selector other than 7d and
    30d yields the one bucket of today. *)
Theorem trend_windows_nest (rt rt' : Runtime) (signals : list Signal.t) :
  (forall i, i < 7 -> isoDate rt' i = isoDate rt i
                      /\ localeDate rt' i = localeDate rt i) ->
  map Window.readings (skipn 23 (generateSignalTrends rt signals "30d"))
  = map Window.readings (generateSignalTrends rt' signals "7d")
  /\ map Window.readings (skipn 6 (generateSignalTrends rt signals "7d"))
     = map Window.readings (generateSignalTrends rt' signals "1d")
  /\ forall range, range <> "7d" -> range <> "30d" ->
       generateSignalTrends rt signals range = [trendDay rt signals 0 0].
Proof.
  intros H. split; [|split].
  - change (skipn 23 (generateSignalTrends rt signals "30d"))
      with (trendLoop rt signals 23 7).
    change (generateSignalTrends rt' signals "7d") with (trendLoop rt' signals 0 7).
    now apply readings_agree.
  - change (skipn 6 (generateSignalTrends rt signals "7d"))
      with (trendLoop rt signals 6 1).
    change (generateSignalTrends rt' signals "1d") with (trendLoop rt' signals 0 1).
    apply readings_agree. intros i Hi. apply H. lia.
  - intros range H7 H30. unfold generateSignalTrends, days.
    destruct (String.eqb_spec range "7d"); [contradiction|].
    destruct (String.eqb_spec range "30d"); [contradiction|]. reflexivity.
Qed.

Lemma trend_windows_nest_witness :
  map Window.readings (skipn 23 (generateSignalTrends Sample.runtime
                                                      Sample.signals "30d"))
  = map Window.readings (generateSignalTrends Sample.later Sample.signals "7d")
  /\ map TrendDay.anomaly (skipn 23 (generateSignalTrends Sample.runtime
                                                          Sample.signals "30d"))
     <> map TrendDay.anomaly (generateSignalTrends Sample.later Sample.signals "7d").
Proof.
  split.
  - apply (trend_windows_nest Sample.runtime Sample.later Sample.signals).
    intros i Hi. split; reflexivity.
  - vm_compute. discriminate.
Defined.

End SeverityFacts.

Module CardFacts.
Import Analytics.

(** X6.  The cards after a refresh that succeeds, for a window whose days
    print pairwise distinct dates of ten characters.  "Total Signals"
    counts the signals whose timestamp starts with the date of a day of
    the window, "High Severity" counts the high-severity signals of the
    whole collection, "Active Locations" is the number of distinct
    regions capped at 10, where a region named [__proto__] is not counted
    (it creates no property in the counter), and the bar chart shows at
    most 8 hotspots, the first of the ranking. *)
Theorem cards_after_refresh (rt : Runtime)
        (signals : option (list Signal.t)) (events : option (list Event.t))
        (st : State) (w : nat) :
  In (timeRange st, w) Window.selectors ->
  (forall i, i < w -> String.length (isoDate rt i) = 10) ->
  (forall i j, i < w -> j < w -> isoDate rt i = isoDate rt j -> i = j) ->
  let fetched := Fetch.data_or_empty signals in
  let data := analyticsData (loadAnalyticsData rt (Fetch.Fulfilled signals)
                                               (Fetch.Fulfilled events) st) in
  AnalyticsView.totalSignals data = count_if (Window.within rt w) fetched
  /\ AnalyticsView.highSeverity data = count_if (severity_is "high") fetched
  /\ AnalyticsView.activeLocations data
     = Nat.min 10 (length (filter JS.assignable (Regions.distinct fetched)))
  /\ (Forall (fun s => JS.ordinary (Regions.region s) = true) fetched ->
      AnalyticsView.activeLocations data
      = Nat.min 10 (length (Regions.distinct fetched)))
  /\ exists bars, AnalyticsView.hotspotBars data = Some bars
                  /\ bars = firstn 8 (locationHotspotsOf fetched)
                  /\ length bars <= 8.
Proof.
  intros Hsel Hlen Hinj. cbv zeta.
  assert (Hd : days (timeRange st) = w).
  { simpl in Hsel.
    destruct Hsel as [H|[H|[H|[]]]]; injection H as Hr Hw;
      rewrite <- Hr, <- Hw; reflexivity. }
  unfold loadAnalyticsData.
  cbn [Fetch.all2 analyticsData loading timeRange derive
       AnalyticsView.totalSignals AnalyticsView.highSeverity
       AnalyticsView.activeLocations AnalyticsView.hotspotBars
       signalTrends severityDistribution locationHotspots].
  assert (Hact : length (locationHotspotsOf (Fetch.data_or_empty signals))
                 = Nat.min 10 (length (filter JS.assignable
                                 (Regions.distinct (Fetch.data_or_empty signals))))).
  { unfold locationHotspotsOf, JS.slice0.
    rewrite length_firstn, JSFacts.sort_length, length_map.
    rewrite (Permutation_length (ObjectFacts.entries_perm _)).
    now rewrite BreakdownFacts.locationCounts_size. }
  split; [|split; [reflexivity|split; [exact Hact|split]]].
  - rewrite CounterFacts.fold_left_total. unfold generateSignalTrends.
    rewrite Hd. simpl. now apply TrendFacts.trendLoop_total.
  - intros Hord. now rewrite Hact, BreakdownFacts.distinct_ordinary.
  - eexists. split; [reflexivity|]. split; [reflexivity|].
    apply firstn_le_length.
Qed.

Lemma cards_after_refresh_witness :
  In ("7d", 7) Window.selectors
  /\ AnalyticsView.totalSignals
       (analyticsData (loadAnalyticsData Sample.runtime
                         (Fetch.Fulfilled (Some Sample.signals))
                         (Fetch.Fulfilled (Some Sample.events)) initial))
     = count_if (Window.within Sample.runtime 7) Sample.signals.
Proof.
  assert (Hsel : In (timeRange initial, 7) Window.selectors) by (simpl; auto).
  split; [exact Hsel|].
  exact (proj1 (cards_after_refresh Sample.runtime (Some Sample.signals)
                  (Some Sample.events) initial 7 Hsel
                  TrendFacts.sample_dates_length TrendFacts.sample_dates_distinct)).
Defined.

(** Before any refresh has succeeded the cards read 0 and the bar chart
    has no data. *)
Example cards_without_data :
  AnalyticsView.totalSignals (analyticsData Sample.afterFailure) = 0
  /\ AnalyticsView.highSeverity (analyticsData Sample.afterFailure) = 0
  /\ AnalyticsView.activeLocations (analyticsData Sample.afterFailure) = 0
  /\ AnalyticsView.hotspotBars (analyticsData Sample.afterFailure) = None.
Proof. repeat split. Qed.

End CardFacts.

Module HourFacts.
Import Analytics.

Lemma increment_total h cs :
  h < length cs -> total (increment h cs) = total cs + 1.
Proof.
  unfold total. revert cs. induction h as [|h IH]; intros [|c cs] Hh; simpl in *;
    try lia.
  rewrite IH by lia. lia.
Qed.

Lemma increment_nth h cs k :
  h < length cs ->
  nth k (increment h cs) 0 = nth k cs 0 + (if (k =? h)%nat then 1 else 0).
Proof.
  revert cs k. induction h as [|h IH]; intros [|c cs] k Hh; simpl in *; try lia.
  - destruct k; simpl; lia.
  - destruct k as [|k]; simpl; [lia|]. apply IH. lia.
Qed.

Section Hours.
Variable rt : Runtime.
Hypothesis hours_range : forall ts h, getHours rt ts = Some h -> h < 24.

Lemma hours_total signals : forall cs,
  length cs = 24 ->
  total (fold_left (tally rt) signals cs) = total cs + count_if (Hours.parses rt) signals.
Proof.
  unfold count_if, Hours.parses.
  induction signals as [|s ss IH]; intros cs Hcs; simpl; [lia|].
  unfold tally at 2. destruct (getHours rt (Signal.created_at s)) as [h|] eqn:E.
  - rewrite IH by (now rewrite TimePatternFacts.increment_length).
    rewrite increment_total by (rewrite Hcs; eauto). simpl. lia.
  - now rewrite IH.
Qed.

Lemma hours_nth signals k : forall cs,
  length cs = 24 ->
  nth k (fold_left (tally rt) signals cs) 0
  = nth k cs 0 + count_if (Hours.at_hour rt k) signals.
Proof.
  unfold count_if, Hours.at_hour.
  induction signals as [|s ss IH]; intros cs Hcs; simpl; [lia|].
  unfold tally at 2. destruct (getHours rt (Signal.created_at s)) as [h|] eqn:E.
  - rewrite IH by (now rewrite TimePatternFacts.increment_length).
    rewrite increment_nth by (rewrite Hcs; eauto).
    rewrite (Nat.eqb_sym k h). destruct (h =? k)%nat; simpl; lia.
  - now rewrite IH.
Qed.

Lemma slots_signals counts : forall i,
  map HourSlot.signals (mapi_from (hourSlot counts) i counts) = counts.
Proof.
  generalize counts at 1 as all.
  induction counts as [|c cs IH]; intros all i; simpl; [reflexivity|].
  now rewrite IH.
Qed.

Lemma nth_repeat_0 k n : nth k (repeat 0 n) 0 = 0.
Proof. revert k. induction n; intros [|k]; simpl; auto. Qed.

(** X7.  Every signal whose timestamp parses is tallied in exactly one of the
    24 slots, the one of its hour; the others are in no slot. *)
Theorem timePatterns_tally (signals : list Signal.t) :
  map HourSlot.signals (generateTimePatterns rt signals) = hourCounts rt signals
  /\ (forall k, nth k (hourCounts rt signals) 0 = count_if (Hours.at_hour rt k) signals)
  /\ total (hourCounts rt signals) = count_if (Hours.parses rt) signals
  /\ total (hourCounts rt signals) <= length signals.
Proof.
  split; [apply slots_signals|]. split; [|split].
  - intros k. unfold hourCounts.
    rewrite hours_nth by apply repeat_length. now rewrite nth_repeat_0.
  - unfold hourCounts. rewrite hours_total by apply repeat_length. reflexivity.
  - unfold hourCounts. rewrite hours_total by apply repeat_length.
    change (total (repeat 0 24)) with 0. apply RiskFacts.count_if_le.
Qed.

Lemma list_max_nth cs k : nth k cs 0 <= list_max cs.
Proof.
  pose proof (proj1 (list_max_le cs (list_max cs)) (Nat.le_refl _)) as H.
  destruct (Nat.lt_ge_cases k (length cs)) as [Hk|Hk].
  - rewrite Forall_forall in H. apply H. now apply nth_In.
  - rewrite nth_overflow by exact Hk. lia.
Qed.

Lemma list_max_In cs : cs <> [] -> In (list_max cs) cs.
Proof.
  induction cs as [|c cs IH]; [congruence|]. intros _.
  destruct cs as [|c' cs]; [simpl; left; lia|].
  change (list_max (c :: c' :: cs)) with (Nat.max c (list_max (c' :: cs))).
  destruct (Nat.max_spec c (list_max (c' :: cs))) as [[_ ->]|[_ ->]].
  - right. apply IH. discriminate.
  - now left.
Qed.

Lemma full_share n :
  0 < n ->
  JS.mul (JS.div (JS.of_nat n) (JS.of_nat n)) (JS.of_nat 100) = JS.of_nat 100.
Proof.
  intros Hn. rewrite NumberFacts.div_of_nat by exact Hn.
  cbv [JS.mul JS.of_nat JS.of_Z]. f_equal.
  change (inject_Z (Z.of_nat 100)) with (Qred 100).
  apply Qred_complete. rewrite !Qred_correct.
  assert (H : ~ (inject_Z (Z.of_nat n) == 0)%Q).
  { intros E. unfold Qeq in E. simpl in E. lia. }
  field. exact H.
Qed.

Lemma slot_of_count all cs i m :
  In m cs ->
  Exists (fun b => HourSlot.signals b = m
                   /\ HourSlot.normalized b
                      = JS.mul (JS.div (JS.of_nat m)
                                       (JS.Math_max (map JS.of_nat all)))
                               (JS.of_nat 100))
         (mapi_from (hourSlot all) i cs).
Proof.
  revert i. induction cs as [|c cs IH]; intros i; cbn [mapi_from In]; [tauto|].
  intros [->|Hm].
  - apply Exists_cons_hd. split; reflexivity.
  - apply Exists_cons_tl. now apply IH.
Qed.

(** X8.  When the timestamp of some signal parses, the busiest slot is
    normalized to 100 and every slot to a number between 0 and 100. *)
Theorem timePatterns_busiest (signals : list Signal.t) (s : Signal.t) :
  In s signals -> Hours.parses rt s = true ->
  Exists (fun b => HourSlot.signals b = list_max (hourCounts rt signals)
                   /\ HourSlot.normalized b = JS.of_nat 100)
         (generateTimePatterns rt signals)
  /\ Forall (fun b => JS.in_0_100 (HourSlot.normalized b))
            (generateTimePatterns rt signals).
Proof.
  intros Hin Hp.
  assert (Hmax : 0 < list_max (hourCounts rt signals)).
  { unfold Hours.parses in Hp.
    destruct (getHours rt (Signal.created_at s)) as [h|] eqn:E; [|discriminate].
    apply Nat.lt_le_trans with (nth h (hourCounts rt signals) 0);
      [|apply list_max_nth].
    unfold hourCounts. rewrite hours_nth by apply repeat_length.
    rewrite nth_repeat_0. unfold count_if.
    assert (Hf : In s (filter (Hours.at_hour rt h) signals)).
    { apply filter_In. split; [exact Hin|]. unfold Hours.at_hour. rewrite E.
      apply Nat.eqb_refl. }
    destruct (filter (Hours.at_hour rt h) signals); [destruct Hf|simpl; lia]. }
  split.
  - assert (Hne : hourCounts rt signals <> []).
    { intros E. apply (f_equal (@length nat)) in E.
      rewrite TimePatternFacts.hourCounts_length in E. discriminate. }
    pose proof (list_max_In _ Hne) as Hm.
    unfold generateTimePatterns.
    eapply Exists_impl; [|apply (slot_of_count _ _ 0 _ Hm)].
    intros b [Hs Hn]. split; [exact Hs|]. rewrite Hn.
    rewrite TimePatternFacts.Math_max_of_nat by exact Hne.
    now apply full_share.
  - eapply Forall_impl; [|apply (TimePatternFacts.timePatterns_normalized rt signals Hmax)].
    intros b [q [_ [_ H]]]. exact H.
Qed.
End Hours.

Lemma sample_hours_range ts h :
  getHours Sample.runtime ts = Some h -> h < 24.
Proof.
  cbn [getHours Sample.runtime]. unfold Sample.hourOf.
  destruct (JS.digits (substring 11 2 ts) 0) as [n|]; [|discriminate].
  destruct (String.length ts <? 13)%nat; [discriminate|].
  destruct (N.ltb_spec n 24) as [Hn|Hn]; [|discriminate].
  intros E. injection E as <-. lia.
Qed.

Lemma timePatterns_tally_witness :
  (forall ts h, getHours Sample.runtime ts = Some h -> h < 24)
  /\ total (hourCounts Sample.runtime Sample.signals)
     = count_if (Hours.parses Sample.runtime) Sample.signals.
Proof.
  split; [exact sample_hours_range|].
  pose proof (timePatterns_tally Sample.runtime sample_hours_range Sample.signals)
    as [_ [_ [H _]]].
  exact H.
Defined.

Lemma timePatterns_busiest_witness :
  Hours.parses Sample.runtime
    (Signal.mk "s1" "Cough" "Mumbai,Andheri" "high" "2024-01-31T10:00:00Z") = true
  /\ Forall (fun b => JS.in_0_100 (HourSlot.normalized b))
            (generateTimePatterns Sample.runtime Sample.signals).
Proof.
  split; [reflexivity|].
  exact (proj2 (timePatterns_busiest Sample.runtime sample_hours_range Sample.signals
                  (Signal.mk "s1" "Cough" "Mumbai,Andheri" "high" "2024-01-31T10:00:00Z")
                  (or_introl eq_refl) eq_refl)).
Defined.

(** X9.  The slots are labelled with the hours of the day, whatever the
    signals. *)
Theorem timePatterns_labels (rt : Runtime) (signals : list Signal.t) :
  map HourSlot.hour (generateTimePatterns rt signals)
  = [ "00:00"; "01:00"; "02:00"; "03:00"; "04:00"; "05:00"; "06:00"; "07:00";
      "08:00"; "09:00"; "10:00"; "11:00"; "12:00"; "13:00"; "14:00"; "15:00";
      "16:00"; "17:00"; "18:00"; "19:00"; "20:00"; "21:00"; "22:00"; "23:00" ].
Proof.
  unfold generateTimePatterns.
  assert (H : forall all cs i,
             map HourSlot.hour (mapi_from (hourSlot all) i cs)
             = map (fun h => (pad2 h ++ ":00")%string) (seq i (length cs))).
  { intros all cs. induction cs as [|c cs IH]; intros i; simpl; [reflexivity|].
    now rewrite IH. }
  rewrite H, TimePatternFacts.hourCounts_length. reflexivity.
Qed.

End HourFacts.

Module CapFacts.
Import Analytics.

Lemma Qred_inject_Z z : Qred (inject_Z z) = inject_Z z.
Proof.
  unfold Qred, inject_Z.
  pose proof (Z.ggcd_gcd z 1) as Hg.
  pose proof (Z.ggcd_correct_divisors z 1) as Hd.
  destruct (Z.ggcd z 1) as [g [a b]]. simpl in *.
  rewrite Z.gcd_1_r in Hg. subst g. destruct Hd as [Ha Hb].
  rewrite Z.mul_1_l in Ha, Hb. now subst.
Qed.

Lemma mul_of_nat a b : JS.mul (JS.of_nat a) (JS.of_nat b) = JS.of_nat (a * b).
Proof.
  cbv [JS.mul JS.of_nat JS.of_Z]. f_equal.
  rewrite Nat2Z.inj_mul.
  transitivity (Qred (inject_Z (Z.of_nat a * Z.of_nat b))).
  - apply Qred_complete. unfold Qeq, inject_Z. simpl. lia.
  - apply Qred_inject_Z.
Qed.

Lemma min_of_nat n : JS.Math_min (JS.of_nat 100) (JS.of_nat n) = JS.of_nat (Nat.min 100 n).
Proof.
  cbv [JS.Math_min JS.of_nat JS.of_Z].
  destruct (Qle_bool (inject_Z (Z.of_nat 100)) (inject_Z (Z.of_nat n))) eqn:E.
  - apply Qle_bool_iff in E. rewrite <- Zle_Qle in E.
    now rewrite Nat.min_l by lia.
  - destruct (Nat.le_gt_cases 100 n) as [Hle|Hgt].
    + assert (Qle_bool (inject_Z (Z.of_nat 100)) (inject_Z (Z.of_nat n)) = true).
      { apply Qle_bool_iff. rewrite <- Zle_Qle. lia. }
      congruence.
    + now rewrite Nat.min_r by lia.
Qed.

(** X10.  The risk assessment always has the same six factors.  Geographic
    Spread is 10 per property of the region counter, that is per distinct
    region other than one named [__proto__], and Event Frequency 5 per
    event, both capped at 100 (reached at 10 such regions, at 20 events);
    Response Time and Community Engagement are the constants 85 and 70.
    When no region names a member of [Object.prototype], Geographic
    Spread is 10 per distinct region, capped at 100. *)
Theorem riskAssessment_caps (signals : list Signal.t) (events : list Event.t) :
  let risk := riskAssessmentOf signals events in
  let regions := filter JS.assignable (Regions.distinct signals) in
  map RiskFactor.factor risk
  = [ "Signal Volume"; "Severity Level"; "Geographic Spread"; "Event Frequency";
      "Response Time"; "Community Engagement" ]
  /\ map RiskFactor.value (skipn 2 risk)
     = [ JS.of_nat (Nat.min 100 (length regions * 10));
         JS.of_nat (Nat.min 100 (length events * 5));
         JS.of_nat 85; JS.of_nat 70 ]
  /\ (10 <= length regions ->
      nth_error (map RiskFactor.value risk) 2 = Some (JS.of_nat 100))
  /\ (20 <= length events ->
      nth_error (map RiskFactor.value risk) 3 = Some (JS.of_nat 100))
  /\ (Forall (fun s => JS.ordinary (Regions.region s) = true) signals ->
      nth_error (map RiskFactor.value risk) 2
      = Some (JS.of_nat (Nat.min 100 (length (Regions.distinct signals) * 10)))).
Proof.
  cbv zeta.
  assert (Hk : length (JS.Object_keys (locationCounts signals))
               = length (filter JS.assignable (Regions.distinct signals))).
  { unfold JS.Object_keys. rewrite length_map.
    rewrite (Permutation_length (ObjectFacts.entries_perm _)).
    apply BreakdownFacts.locationCounts_size. }
  unfold riskAssessmentOf.
  cbn [map skipn RiskFactor.factor RiskFactor.value nth_error].
  rewrite !mul_of_nat, !min_of_nat, Hk.
  split; [reflexivity|]. split; [reflexivity|]. split; [|split]; intros H.
  - now rewrite Nat.min_l by lia.
  - now rewrite Nat.min_l by lia.
  - now rewrite BreakdownFacts.distinct_ordinary.
Qed.

Lemma riskAssessment_caps_witness :
  Forall (fun s => JS.ordinary (Regions.region s) = true) Sample.signals
  /\ nth_error (map RiskFactor.value
                    (riskAssessmentOf Sample.signals Sample.events)) 2
     = Some (JS.of_nat (Nat.min 100 (length (Regions.distinct Sample.signals) * 10))).
Proof.
  split; [exact BreakdownFacts.sample_regions_ordinary|].
  exact (proj2 (proj2 (proj2 (proj2
           (riskAssessment_caps Sample.signals Sample.events))))
           BreakdownFacts.sample_regions_ordinary).
Defined.

(** A region named [__proto__] adds nothing to Geographic Spread. *)
Example spread_without_proto :
  map RiskFactor.value
      (firstn 1 (skipn 2
         (riskAssessmentOf
            [ Signal.mk "s1" "Cough" "__proto__,North" "high" "2024-01-31T10:00:00Z";
              Signal.mk "s2" "Cough" "Pune,West" "low" "2024-01-31T11:00:00Z" ]
            [])))
  = [JS.of_nat 10].
Proof. reflexivity. Qed.

End CapFacts.

Module InboxFacts.
Import Notifications.

Lemma NoDup_map_filter {A B} (f : A -> B) (p : A -> bool) xs :
  NoDup (map f xs) -> NoDup (map f (List.filter p xs)).
Proof.
  induction xs as [|x xs IH]; simpl; [auto|].
  intros H. inversion H as [|? ? Hx Hxs]; subst.
  destruct (p x); simpl; [|auto]. constructor; [|auto].
  intros Hin. apply Hx. apply in_map_iff in Hin. destruct Hin as [y [Hy Hin]].
  apply filter_In in Hin. rewrite <- Hy. now apply in_map.
Qed.

Lemma NoDup_prefixed (p : string) (ids : list string) :
  NoDup ids -> NoDup (map (String.append p) ids).
Proof.
  apply Finite.Injective_map_NoDup. intros x y.
  induction p as [|c p IH]; simpl; [auto|]. intros H. injection H as H. auto.
Qed.

Lemma alert_ids alerts :
  map id (map ofAlert alerts) = map (String.append "alert-") (map Alert.id alerts).
Proof. rewrite !map_map. reflexivity. Qed.

Lemma event_ids events :
  map id (map ofEvent events) = map (String.append "event-") (map Event.id events).
Proof. rewrite !map_map. reflexivity. Qed.

Lemma merged_ids_unique rt alerts events :
  NoDup (map Alert.id alerts) -> NoDup (map Event.id events) ->
  NoDup (map id (merged rt alerts events)).
Proof.
  intros Ha He. unfold merged, alertNotifications, eventNotifications.
  rewrite !map_app, alert_ids, event_ids.
  apply NoDup_app; [now apply NoDup_prefixed| |].
  - apply NoDup_app; [apply NoDup_prefixed; now apply NoDup_map_filter| |].
    + repeat constructor. simpl. tauto.
    + intros x Hx [Hs|[]]. apply in_map_iff in Hx.
      destruct Hx as [y [Hy _]]. rewrite <- Hs in Hy. discriminate Hy.
  - intros x Hx Hin. apply in_map_iff in Hx. destruct Hx as [y [Hy _]].
    apply in_app_iff in Hin. destruct Hin as [Hin|[Hs|[]]].
    + apply in_map_iff in Hin. destruct Hin as [z [Hz _]].
      rewrite <- Hy in Hz. discriminate Hz.
    + rewrite <- Hs in Hy. discriminate Hy.
Qed.

(** X11.  When the alerts and the events of the store have unique ids, so have
    the notifications kept by a merge. *)
Theorem notification_ids_unique (rt : Runtime)
        (alerts : list Alert.t) (events : list Event.t) :
  NoDup (map Alert.id alerts) -> NoDup (map Event.id events) ->
  NoDup (map id (allNotifications rt alerts events)).
Proof.
  intros Ha He. unfold allNotifications, JS.slice0.
  rewrite <- firstn_map. apply CounterFacts.firstn_NoDup.
  eapply Permutation_NoDup; [|apply (merged_ids_unique rt _ _ Ha He)].
  apply Permutation_map. symmetry. apply JSFacts.sort_perm.
Qed.

Lemma sample_alert_ids : NoDup (map Alert.id (firstn 2 Sample.alerts)).
Proof. repeat constructor; simpl; intuition discriminate. Qed.

Lemma sample_event_ids : NoDup (map Event.id Sample.events).
Proof. repeat constructor; simpl; intuition discriminate. Qed.

Lemma notification_ids_unique_witness :
  NoDup (map Alert.id (firstn 2 Sample.alerts))
  /\ NoDup (map Event.id Sample.events)
  /\ NoDup (map id (notifications Inbox.sample)).
Proof.
  split; [exact sample_alert_ids|]. split; [exact sample_event_ids|].
  exact (notification_ids_unique Sample.notificationRuntime
           (firstn 2 Sample.alerts) Sample.events
           sample_alert_ids sample_event_ids).
Defined.

Lemma mark_ids target ns :
  map id (map (fun notif => if String.eqb (id notif) target then setRead notif
                            else notif) ns)
  = map id ns.
Proof.
  rewrite map_map. apply map_ext. intros n.
  now destruct (String.eqb (id n) target).
Qed.

Lemma mark_unread target ns :
  count_if (fun n => negb (read n))
           (map (fun notif => if String.eqb (id notif) target then setRead notif
                              else notif) ns)
  = count_if (fun n => negb (read n) && negb (String.eqb (id n) target)) ns.
Proof.
  unfold count_if. induction ns as [|n ns IH]; simpl; [reflexivity|].
  destruct (String.eqb (id n) target); simpl.
  - rewrite andb_false_r. exact IH.
  - rewrite andb_true_r. destruct (negb (read n)); simpl; now rewrite IH.
Qed.

Lemma count_if_le_weaken {A} (p q : A -> bool) xs :
  (forall x, p x = true -> q x = true) -> count_if p xs <= count_if q xs.
Proof.
  intros H. unfold count_if. induction xs as [|x xs IH]; simpl; [lia|].
  destruct (p x) eqn:Hp; [rewrite (H x Hp)|destruct (q x)]; simpl; lia.
Qed.

(** X12.  [markAsRead] changes read flags only: the notifications keep their
    ids and their order, those of the given id are read afterwards, the
    unread count drops by the number of unread notifications of that id,
    marking again changes nothing, and marks of two ids commute. *)
Theorem markAsRead_effect (target : string) (st : State) :
  let st' := markAsRead target st in
  map id (notifications st') = map id (notifications st)
  /\ Forall (fun n => id n = target -> read n = true) (notifications st')
  /\ unreadCount st'
     = count_if (fun n => negb (read n) && negb (String.eqb (id n) target))
                (notifications st)
  /\ unreadCount st' <= unreadCount st
  /\ markAsRead target st' = st'
  /\ (forall other, markAsRead other st' = markAsRead target (markAsRead other st))
  /\ filter st' = filter st /\ isLoading st' = isLoading st.
Proof.
  cbv zeta. destruct st as [ns f l]. unfold markAsRead, setNotifications, unreadCount.
  cbn [notifications filter isLoading].
  split; [apply mark_ids|]. split.
  { apply Forall_forall. intros n Hn. apply in_map_iff in Hn.
    destruct Hn as [m [<- _]]. destruct (String.eqb_spec (id m) target); [reflexivity|].
    intros; contradiction. }
  split; [apply mark_unread|]. split.
  { rewrite mark_unread. apply count_if_le_weaken.
    intros n H. now apply andb_true_iff in H. }
  split.
  { f_equal. rewrite map_map. apply map_ext. intros n.
    destruct (String.eqb (id n) target) eqn:E; simpl; rewrite E; reflexivity. }
  split; [|split; reflexivity].
  intros other. f_equal. rewrite !map_map. apply map_ext. intros n.
  destruct (String.eqb (id n) target) eqn:E, (String.eqb (id n) other) eqn:E';
    simpl; rewrite ?E, ?E'; reflexivity.
Qed.

Lemma no_unread_of_absent_id (t : string) ns :
  ~ In t (map id ns) ->
  List.filter (fun m => negb (read m) && String.eqb (id m) t) ns = [].
Proof.
  induction ns as [|k ns IH]; simpl; [reflexivity|]. intros H.
  destruct (String.eqb_spec (id k) t) as [E|_]; [tauto|].
  rewrite andb_false_r. apply IH. tauto.
Qed.

Lemma count_one_id (n : Notification) ns :
  NoDup (map id ns) -> In n ns -> read n = false ->
  count_if (fun m => negb (read m) && String.eqb (id m) (id n)) ns = 1.
Proof.
  unfold count_if. induction ns as [|m ns IH]; simpl; [tauto|].
  intros Hnd [->|Hin] Hr; inversion Hnd as [|? ? Hm Hnd']; subst.
  - rewrite Hr, String.eqb_refl. simpl.
    now rewrite no_unread_of_absent_id.
  - destruct (String.eqb_spec (id m) (id n)) as [E|_].
    + exfalso. apply Hm. rewrite E. now apply in_map.
    + rewrite andb_false_r. now apply IH.
Qed.

(** X13.  With unique ids, marking an unread notification of the list as read
    lowers the unread count by exactly one. *)
Theorem markAsRead_decrements (n : Notification) (st : State) :
  NoDup (map id (notifications st)) -> In n (notifications st) -> read n = false ->
  unreadCount (markAsRead (id n) st) + 1 = unreadCount st.
Proof.
  intros Hnd Hin Hr. destruct st as [ns f l].
  unfold markAsRead, setNotifications, unreadCount. cbn [notifications] in *.
  rewrite mark_unread. rewrite <- (count_one_id n ns Hnd Hin Hr).
  unfold count_if. clear. induction ns as [|m ns IH]; simpl; [reflexivity|].
  destruct (negb (read m)), (String.eqb (id m) (id n)); simpl; lia.
Qed.

Lemma sample_inbox_ids : NoDup (map id (notifications Inbox.sample)).
Proof. repeat constructor; simpl; intuition discriminate. Qed.

Lemma markAsRead_decrements_witness :
  In Inbox.first (notifications Inbox.sample)
  /\ unreadCount (markAsRead "event-e1" Inbox.sample) + 1 = unreadCount Inbox.sample.
Proof.
  assert (Hin : In Inbox.first (notifications Inbox.sample)) by (simpl; auto).
  split; [exact Hin|].
  exact (markAsRead_decrements Inbox.first Inbox.sample sample_inbox_ids Hin
                               eq_refl).
Defined.

(** X14.  [markAsRead] of an id that no notification carries leaves the state
    as it is. *)
Theorem markAsRead_absent (target : string) (st : State) :
  Forall (fun n => id n <> target) (notifications st) ->
  markAsRead target st = st /\ unreadCount (markAsRead target st) = unreadCount st.
Proof.
  intros H. rewrite (NotificationFacts.markAsRead_unknown target st H). now split.
Qed.

Lemma markAsRead_absent_witness :
  Forall (fun n => id n <> "event-e2") (notifications Inbox.sample)
  /\ markAsRead "event-e2" Inbox.sample = Inbox.sample.
Proof.
  assert (H : Forall (fun n => id n <> "event-e2") (notifications Inbox.sample))
    by (repeat constructor; discriminate).
  split; [exact H|].
  exact (proj1 (markAsRead_absent "event-e2" Inbox.sample H)).
Defined.

(** X15.  After [markAllAsRead] nothing is unread: the count is 0, the button
    that marks all is hidden, the Unread filter shows the message "All
    caught up!", and a second call changes nothing.  The notifications
    keep their ids and their order. *)
Theorem markAllAsRead_clears (st : State) :
  let st' := markAllAsRead st in
  unreadCount st' = 0
  /\ NotificationView.showsMarkAll st' = false
  /\ map id (notifications st') = map id (notifications st)
  /\ markAllAsRead st' = st'
  /\ (isLoading st = false -> filter st = "unread" ->
      NotificationView.render st' = NotificationView.NoNotifications "All caught up!").
Proof.
  cbv zeta.
  assert (H0 : unreadCount (markAllAsRead st) = 0)
    by apply NotificationFacts.unreadCount_markAllAsRead.
  split; [exact H0|]. split; [unfold NotificationView.showsMarkAll; now rewrite H0|].
  split.
  { unfold markAllAsRead, setNotifications. cbn [notifications].
    rewrite map_map. reflexivity. }
  split; [apply NotificationFacts.markAllAsRead_idempotent|].
  intros Hl Hf. unfold NotificationView.render.
  assert (E : filteredNotifications (markAllAsRead st) = []).
  { unfold filteredNotifications, markAllAsRead, setNotifications.
    cbn [notifications filter]. rewrite Hf. simpl.
    induction (notifications st) as [|n ns IH]; simpl; [reflexivity|exact IH]. }
  rewrite E. unfold markAllAsRead, setNotifications. cbn [isLoading filter].
  now rewrite Hl, Hf.
Qed.

(** X16.  A click on a notification of a merge marks it read and navigates to
    the alerts page for an alert, to the event's page for an event, and
    nowhere for the system notice. *)
Theorem click_navigates (rt : Runtime) (alerts : list Alert.t)
        (events : list Event.t) (n : Notification) (st : State) :
  In n (merged rt alerts events) ->
  fst (NotificationView.click n st) = markAsRead (id n) st
  /\ ((type n = "alert" /\ snd (NotificationView.click n st) = Some "/alerts")
      \/ (type n = "event"
          /\ exists e, In e events /\ Event.status e = "active"
                       /\ snd (NotificationView.click n st)
                          = Some ("/event/" ++ Event.id e)%string)
      \/ (type n = "system" /\ snd (NotificationView.click n st) = None)).
Proof.
  intros Hin. split; [reflexivity|].
  apply NotificationFacts.merged_In in Hin.
  destruct Hin as [[a [_ ->]]|[[e [He [Hact ->]]]|[<-|[]]]].
  - left. split; reflexivity.
  - right; left. split; [reflexivity|]. exists e. repeat split; assumption.
  - right; right. split; reflexivity.
Qed.

Lemma click_navigates_witness :
  In Inbox.first (merged Sample.notificationRuntime (firstn 2 Sample.alerts)
                         Sample.events)
  /\ fst (NotificationView.click Inbox.first Inbox.sample)
     = markAsRead "event-e1" Inbox.sample.
Proof.
  assert (Hin : In Inbox.first (merged Sample.notificationRuntime
                                       (firstn 2 Sample.alerts) Sample.events))
    by (simpl; auto).
  split; [exact Hin|].
  exact (proj1 (click_navigates Sample.notificationRuntime (firstn 2 Sample.alerts)
                  Sample.events Inbox.first Inbox.sample Hin)).
Defined.

(** X17.  A load that succeeds forgets the read marks: whatever the state
    before, every notification of the new list is unread, and the list
    holds at least the system notice.  The filter is kept. *)
Theorem reload_forgets_read_marks (rt : Runtime)
        (alerts : option (list Alert.t)) (events : option (list Event.t))
        (st : State) :
  let st' := loadNotifications rt (Fetch.Fulfilled alerts)
                               (Fetch.Fulfilled events) st in
  Forall (fun n => read n = false) (notifications st')
  /\ notifications st'
     = notifications (loadNotifications rt (Fetch.Fulfilled alerts)
                                        (Fetch.Fulfilled events) (markAllAsRead st))
  /\ 1 <= length (notifications st') <= 20
  /\ filter st' = filter st
  /\ isLoading st' = false.
Proof.
  cbv zeta. unfold loadNotifications. cbn [Fetch.all2 notifications filter isLoading].
  split.
  { unfold allNotifications, JS.slice0.
    apply JSFacts.firstn_Forall, JSFacts.sort_Forall, NotificationFacts.all_unread. }
  split; [reflexivity|]. split; [|split; reflexivity].
  unfold allNotifications, JS.slice0.
  rewrite length_firstn, JSFacts.sort_length. unfold merged.
  rewrite !length_app. unfold systemNotifications. cbn [length]. lia.
Qed.

(** X18.  A load whose fetch is rejected keeps the notifications with their
    read marks, and the filter; only the loading flag ends false. *)
Theorem notifications_survive_failure (rt : Runtime)
        (alertsResult : Fetch.result Alert.t) (eventsResult : Fetch.result Event.t)
        (st : State) :
  Fetch.all2 alertsResult eventsResult = None ->
  let st' := loadNotifications rt alertsResult eventsResult st in
  notifications st' = notifications st
  /\ unreadCount st' = unreadCount st
  /\ filteredNotifications st' = filteredNotifications st
  /\ isLoading st' = false.
Proof.
  intros Hfail. cbv zeta. unfold loadNotifications, unreadCount, filteredNotifications.
  rewrite Hfail. repeat split.
Qed.

Lemma notifications_survive_failure_witness :
  Fetch.all2 (Fetch.Fulfilled (Some Sample.alerts)) (@Fetch.Rejected Event.t) = None
  /\ notifications (loadNotifications Sample.notificationRuntime
                      (Fetch.Fulfilled (Some Sample.alerts)) Fetch.Rejected
                      (markAllAsRead Inbox.sample))
     = notifications (markAllAsRead Inbox.sample).
Proof.
  assert (Hfail : Fetch.all2 (Fetch.Fulfilled (Some Sample.alerts))
                             (@Fetch.Rejected Event.t) = None) by reflexivity.
  split; [exact Hfail|].
  exact (proj1 (notifications_survive_failure Sample.notificationRuntime
                  (Fetch.Fulfilled (Some Sample.alerts)) Fetch.Rejected
                  (markAllAsRead Inbox.sample) Hfail)).
Defined.

End InboxFacts.

Module ScheduleFacts.
Import Monitor.

Lemma count_if_perm {A} (p : A -> bool) xs ys :
  Permutation xs ys -> count_if p xs = count_if p ys.
Proof.
  unfold count_if. induction 1; simpl; auto.
  - destruct (p x); simpl; lia.
  - destruct (p x), (p y); simpl; lia.
  - lia.
Qed.

(** X19.  A load that succeeds counts over the whole fetched collection, in
    whatever order the store returned it: today's signals by date, the
    high-severity signals of any date, the active events.  It fills the
    buffer with unflagged entries and leaves the connection flag and the
    health as they were. *)
Theorem load_counts (env : LoadEnv)
        (signals : option (list Signal.t)) (events : option (list Event.t))
        (st : State) :
  let fetched := Fetch.data_or_empty signals in
  let st' := loadInitialData env (Fetch.Fulfilled signals) (Fetch.Fulfilled events) st in
  stats st'
  = {| totalToday :=
         count_if (fun s => JS.startsWith (Signal.created_at s) (today env)) fetched;
       highSeverity := count_if isHigh fetched;
       activeEvents := count_if isActive (Fetch.data_or_empty events);
       avgResponseTime := "2.3s" |}
  /\ length (recentSignals st') = Nat.min 10 (length fetched)
  /\ Forall (fun s => isNew s = None) (recentSignals st')
  /\ isConnected (systemStatus st') = isConnected (systemStatus st)
  /\ systemHealth (systemStatus st') = systemHealth (systemStatus st)
  /\ lastUpdate (systemStatus st') = loadedAt env.
Proof.
  cbv zeta. unfold loadInitialData.
  cbn [Fetch.all2 stats recentSignals systemStatus isConnected systemHealth lastUpdate].
  pose proof (JSFacts.sort_perm (byCreatedDesc env) (Fetch.data_or_empty signals)) as Hp.
  split.
  { f_equal.
    - change (length (List.filter ?p ?l)) with (count_if p l).
      now apply count_if_perm.
    - now apply count_if_perm. }
  split.
  { unfold JS.slice0. now rewrite length_map, length_firstn, JSFacts.sort_length. }
  split; [|repeat split].
  apply Forall_forall. intros s Hs. apply in_map_iff in Hs.
  now destruct Hs as [x [<- _]].
Qed.

(** X20.  A fetch that resolves without data is a load of the empty
    collection: the buffer is emptied and the counts are zeroed, and no
    failure is flagged. *)
Theorem load_without_data (env : LoadEnv) (st : State) :
  let st' := loadInitialData env (Fetch.Fulfilled None) (Fetch.Fulfilled None) st in
  recentSignals st' = []
  /\ stats st' = {| totalToday := 0; highSeverity := 0; activeEvents := 0;
                    avgResponseTime := "2.3s" |}
  /\ isConnected (systemStatus st') = isConnected (systemStatus st)
  /\ systemHealth (systemStatus st') = systemHealth (systemStatus st)
  /\ st' = loadInitialData env (Fetch.Fulfilled (Some [])) (Fetch.Fulfilled (Some [])) st.
Proof. cbv zeta. repeat split. Qed.

Lemma step_keeps_disconnected st st' :
  step st st' ->
  isConnected (systemStatus st) = false -> isConnected (systemStatus st') = false.
Proof.
  intros Hstep H. destruct Hstep as [env sr er st|env st _|target st|st].
  - unfold loadInitialData. destruct (Fetch.all2 sr er) as [[? ?]|]; [exact H|reflexivity].
  - unfold simulateRealTimeUpdate. destruct (arrives env); exact H.
  - exact H.
  - exact H.
Qed.

(** X21.  Once the connection flag is false it stays false: no load, tick,
    delayed callback or pause of the monitor sets it again. *)
Theorem disconnected_is_permanent (st st' : State) :
  Schedule.runs st st' ->
  isConnected (systemStatus st) = false ->
  isConnected (systemStatus st') = false.
Proof.
  induction 1 as [st|st st' st'' _ IH Hstep]; intros H; [exact H|].
  apply (step_keeps_disconnected st' st'' Hstep). now apply IH.
Qed.

Lemma sample_run :
  Schedule.runs Schedule.failed
    (simulateRealTimeUpdate Sample.tickEnv
       (loadInitialData Sample.loadEnv (Fetch.Fulfilled (Some Sample.signals))
                        (Fetch.Fulfilled (Some Sample.events)) Schedule.failed)).
Proof.
  eapply Schedule.runs_then; [eapply Schedule.runs_then; [apply Schedule.runs_here|]|].
  - apply step_load.
  - apply step_tick. reflexivity.
Qed.

Lemma disconnected_is_permanent_witness :
  isConnected (systemStatus Schedule.failed) = false
  /\ isConnected
       (systemStatus
          (simulateRealTimeUpdate Sample.tickEnv
             (loadInitialData Sample.loadEnv (Fetch.Fulfilled (Some Sample.signals))
                              (Fetch.Fulfilled (Some Sample.events)) Schedule.failed)))
     = false.
Proof.
  split; [reflexivity|].
  exact (disconnected_is_permanent _ _ sample_run eq_refl).
Defined.

(** X22.  The health set by a failed load does not outlast the next tick: the
    tick sets the health to healthy or warning, while the connection flag
    stays false. *)
Theorem critical_until_next_tick (lenv : LoadEnv) (env : TickEnv)
        (signalsResult : Fetch.result Signal.t) (eventsResult : Fetch.result Event.t)
        (st : State) :
  Fetch.all2 signalsResult eventsResult = None ->
  let st1 := loadInitialData lenv signalsResult eventsResult st in
  let st2 := simulateRealTimeUpdate env st1 in
  systemHealth (systemStatus st1) = "critical"
  /\ isConnected (systemStatus st1) = false
  /\ (systemHealth (systemStatus st2) = "healthy"
      \/ systemHealth (systemStatus st2) = "warning")
  /\ isConnected (systemStatus st2) = false
  /\ lastUpdate (systemStatus st2) = statusAt env.
Proof.
  intros Hfail. cbv zeta. unfold loadInitialData. rewrite Hfail.
  unfold simulateRealTimeUpdate.
  destruct (arrives env);
    cbn [systemStatus refreshStatus systemHealth isConnected lastUpdate];
    (split; [reflexivity|]; split; [reflexivity|]; split;
     [destruct (negb (Qle_bool (healthDraw env) (9 # 10))); auto|split; reflexivity]).
Qed.

Lemma critical_until_next_tick_witness :
  Fetch.all2 (@Fetch.Rejected Signal.t) (@Fetch.Rejected Event.t) = None
  /\ systemHealth (systemStatus Schedule.failed) = "critical"
  /\ systemHealth (systemStatus (simulateRealTimeUpdate Sample.tickEnv Schedule.failed))
     = "healthy".
Proof.
  assert (Hfail : Fetch.all2 (@Fetch.Rejected Signal.t) (@Fetch.Rejected Event.t) = None)
    by reflexivity.
  split; [exact Hfail|].
  pose proof (critical_until_next_tick Sample.loadEnv Sample.tickEnv
                Fetch.Rejected Fetch.Rejected Sample.loaded Hfail) as [H1 _].
  split; [exact H1|reflexivity].
Defined.

(** X23.  The delayed callback touches nothing but the highlight of the
    entries with the given id: all entries keep their place and their
    other fields, stats and status are as before, and a second run
    changes nothing. *)
Theorem clearNew_effect (target : string) (st : State) :
  let st' := clearNew target st in
  Forall2 (fun old new =>
             new = if String.eqb (id old) target then Schedule.settled old else old)
          (recentSignals st) (recentSignals st')
  /\ map id (recentSignals st') = map id (recentSignals st)
  /\ Forall (fun s => id s = target -> isNew s = Some false) (recentSignals st')
  /\ stats st' = stats st
  /\ systemStatus st' = systemStatus st
  /\ isMonitoring st' = isMonitoring st
  /\ clearNew target st' = st'.
Proof.
  cbv zeta. unfold clearNew. cbn [recentSignals stats systemStatus isMonitoring].
  split.
  { induction (recentSignals st) as [|s ss IH]; simpl; constructor; auto. }
  split.
  { rewrite map_map. apply map_ext. intros s.
    now destruct (String.eqb (id s) target). }
  split.
  { apply Forall_forall. intros s Hs. apply in_map_iff in Hs.
    destruct Hs as [x [<- _]].
    destruct (String.eqb_spec (id x) target); [reflexivity|]. intros; contradiction. }
  split; [reflexivity|]. split; [reflexivity|]. split; [reflexivity|].
  f_equal. rewrite map_map. apply map_ext. intros s.
  destruct (String.eqb (id s) target) eqn:E; cbn [id]; rewrite E; reflexivity.
Qed.

(** X24.  A delayed callback whose entry has left the buffer changes
    nothing. *)
Theorem clearNew_after_eviction (target : string) (st : State) :
  Forall (fun s => id s <> target) (recentSignals st) ->
  clearNew target st = st.
Proof.
  destruct st as [m rs ss stt]. unfold clearNew.
  cbn [recentSignals stats systemStatus isMonitoring]. intros H. f_equal.
  induction H as [|s rs Hs _ IH]; simpl; [reflexivity|].
  destruct (String.eqb_spec (id s) target); [contradiction|]. now rewrite IH.
Qed.

Lemma clearNew_after_eviction_witness :
  Forall (fun s => id s <> "signal-1706702400000") (recentSignals Sample.monitored)
  /\ clearNew "signal-1706702400000" Sample.monitored = Sample.monitored.
Proof.
  assert (H : Forall (fun s => id s <> "signal-1706702400000")
                     (recentSignals Sample.monitored))
    by (repeat constructor; discriminate).
  split; [exact H|].
  exact (clearNew_after_eviction "signal-1706702400000" Sample.monitored H).
Defined.

(** X25.  When the callback of an arrived signal runs right after its tick,
    the signal heads the buffer with its highlight off, and no entry of
    its id is highlighted. *)
Theorem highlight_is_cleared (env : TickEnv) (st : State) :
  arrives env = true ->
  let st' := clearNew (id (newSignal env)) (simulateRealTimeUpdate env st) in
  hd_error (recentSignals st') = Some (Schedule.settled (newSignal env))
  /\ Forall (fun s => id s = id (newSignal env) -> isNew s = Some false)
            (recentSignals st')
  /\ length (recentSignals st') = S (Nat.min 9 (length (recentSignals st)))
  /\ stats st' = stats (simulateRealTimeUpdate env st).
Proof.
  intros Harr. cbv zeta. unfold simulateRealTimeUpdate. rewrite Harr.
  unfold clearNew at 1 2 3. cbn [recentSignals stats map hd_error].
  rewrite String.eqb_refl. split; [reflexivity|]. split.
  { constructor; [reflexivity|].
    apply Forall_forall. intros s Hs. apply in_map_iff in Hs.
    destruct Hs as [x [<- _]].
    destruct (String.eqb_spec (id x) (id (newSignal env))); [reflexivity|].
    intros; contradiction. }
  split; [|reflexivity].
  cbn [length]. unfold JS.slice0. now rewrite length_map, length_firstn.
Qed.

Lemma highlight_is_cleared_witness :
  arrives Sample.tickEnv = true
  /\ hd_error (recentSignals (clearNew "signal-1706702403000" Sample.monitored))
     = Some (Schedule.settled (newSignal Sample.tickEnv)).
Proof.
  split; [reflexivity|].
  exact (proj1 (highlight_is_cleared Sample.tickEnv Sample.loaded eq_refl)).
Defined.

Lemma prefix_append (p s : string) : String.prefix p (p ++ s) = true.
Proof.
  induction p as [|c p IH]; simpl; [now destruct s|].
  destruct (ascii_dec c c); [exact IH|congruence].
Qed.

(** X26.  For draws that [Math.random()] can return, the synthesized signal
    takes its type, location and severity from the three pools; its id
    is the clock reading after "signal-", and it is highlighted. *)
Theorem newSignal_from_pools (env : TickEnv) :
  Schedule.unit_draw (typeDraw env) ->
  Schedule.unit_draw (locationDraw env) ->
  Schedule.unit_draw (severityDraw env) ->
  In (type (newSignal env)) types
  /\ In (location (newSignal env)) locations
  /\ (severity (newSignal env) = "low" \/ severity (newSignal env) = "medium"
      \/ severity (newSignal env) = "high")
  /\ String.prefix "signal-" (id (newSignal env)) = true
  /\ isNew (newSignal env) = Some true.
Proof.
  intros [Ht0 Ht1] [Hl0 Hl1] [Hs0 Hs1].
  split; [apply PickFacts.pick_in_pool; [discriminate|assumption..]|].
  split; [apply PickFacts.pick_in_pool; [discriminate|assumption..]|].
  split.
  { pose proof (PickFacts.pick_in_pool severities (severityDraw env)
                  ltac:(discriminate) Hs0 Hs1) as H.
    cbn [newSignal severity]. simpl in H. intuition auto. }
  split; [apply prefix_append|reflexivity].
Qed.

Lemma newSignal_from_pools_witness :
  Schedule.unit_draw (typeDraw Sample.tickEnv)
  /\ In (type (newSignal Sample.tickEnv)) types
  /\ In (location (newSignal Sample.tickEnv)) locations.
Proof.
  assert (Ht : Schedule.unit_draw (typeDraw Sample.tickEnv))
    by (split; [discriminate|reflexivity]).
  assert (Hl : Schedule.unit_draw (locationDraw Sample.tickEnv))
    by (split; [discriminate|reflexivity]).
  assert (Hs : Schedule.unit_draw (severityDraw Sample.tickEnv))
    by (split; [discriminate|reflexivity]).
  split; [exact Ht|].
  pose proof (newSignal_from_pools Sample.tickEnv Ht Hl Hs) as [H1 [H2 _]].
  split; [exact H1|exact H2].
Defined.

Lemma floor_scaled (draw : Q) (n : Z) :
  (0 < n)%Z -> Schedule.unit_draw draw ->
  (1 <= JS.Math_floor (draw * inject_Z n) + 1 <= n)%Z.
Proof.
  intros Hn [H0 H1]. unfold JS.Math_floor.
  assert (Hq : (0 < inject_Z n)%Q).
  { change 0%Q with (inject_Z 0). now rewrite <- Zlt_Qlt. }
  assert (Hlo : (0 <= Qfloor (draw * inject_Z n))%Z).
  { change 0%Z with (Qfloor 0). apply Qfloor_resp_le.
    apply Qmult_le_0_compat; [exact H0|now apply Qlt_le_weak]. }
  assert (Hhi : (Qfloor (draw * inject_Z n) < n)%Z).
  { rewrite Zlt_Qlt.
    apply Qle_lt_trans with (draw * inject_Z n)%Q; [apply Qfloor_le|].
    setoid_replace (inject_Z n) with (1 * inject_Z n)%Q at 2
      by (now rewrite Qmult_1_l).
    now apply Qmult_lt_compat_r. }
  lia.
Qed.

(** X27.  For draws that [Math.random()] can return, the signals-per-minute
    gauge reads 1 to 8 after a tick and 1 to 5 after a load that
    succeeds. *)
Theorem signalsPerMinute_range (env : TickEnv) (lenv : LoadEnv)
        (signals : option (list Signal.t)) (events : option (list Event.t))
        (st : State) :
  Schedule.unit_draw (rateDraw env) ->
  Schedule.unit_draw (loadDraw lenv) ->
  (1 <= signalsPerMinute (systemStatus (simulateRealTimeUpdate env st)) <= 8)%Z
  /\ (1 <= signalsPerMinute
             (systemStatus (loadInitialData lenv (Fetch.Fulfilled signals)
                                            (Fetch.Fulfilled events) st)) <= 5)%Z.
Proof.
  intros Hr Hl. split.
  - unfold simulateRealTimeUpdate.
    destruct (arrives env); cbn [systemStatus refreshStatus signalsPerMinute];
      apply (floor_scaled (rateDraw env) 8); [lia|exact Hr|lia|exact Hr].
  - unfold loadInitialData. cbn [Fetch.all2 systemStatus signalsPerMinute].
    apply (floor_scaled (loadDraw lenv) 5); [lia|exact Hl].
Qed.

Lemma signalsPerMinute_range_witness :
  Schedule.unit_draw (rateDraw Sample.tickEnv)
  /\ Schedule.unit_draw (loadDraw Sample.loadEnv)
  /\ (1 <= signalsPerMinute (systemStatus Sample.monitored) <= 8)%Z.
Proof.
  assert (Hr : Schedule.unit_draw (rateDraw Sample.tickEnv))
    by (split; [discriminate|reflexivity]).
  assert (Hl : Schedule.unit_draw (loadDraw Sample.loadEnv))
    by (split; [discriminate|reflexivity]).
  split; [exact Hr|]. split; [exact Hl|].
  exact (proj1 (signalsPerMinute_range Sample.tickEnv Sample.loadEnv
                  None None Sample.loaded Hr Hl)).
Defined.




End ScheduleFacts.

Module RangeFacts.
Import Analytics.

Lemma riskAssessment_in_range_witness :
  Sample.signals <> []
  /\ Forall (fun f => JS.in_0_100 (RiskFactor.value f))
            (riskAssessmentOf Sample.signals Sample.events).
Proof.
  assert (Hne : Sample.signals <> []) by discriminate.
  split; [exact Hne|].
  exact (proj1 (RiskFacts.riskAssessment_in_range Sample.signals Sample.events Hne)).
Defined.

End RangeFacts.
